(** * subnet-calc: a shallow embedding of [subnet.py] and its properties

    The script computes, for an IP network given as address text and prefix
    length, the subnet mask, network address, broadcast address and usable
    host range, and optionally splits the network into equally sized
    subnets.  All address arithmetic is delegated to CPython's [ipaddress]
    module; the part of that module the script reaches is embedded below
    (module [ipaddress], following CPython 3.11), then the functions of
    [subnet.py] themselves, then the properties. *)

From Stdlib Require Import ZArith List String Ascii Bool Lia QArith.
From Stdlib Require Import Decimal DecimalString DecimalZ DecimalPos.
From Stdlib Require Hexadecimal HexadecimalString.
From Equations Require Import Equations.
From Equations.Prop Require Import Logic.
Import ListNotations.

Local Open Scope Z_scope.

(** ** Python values, exceptions and outcomes *)

Module Py.

(** A Python number as the script meets it: [2 ** e] is an [int] for
    [e >= 0] and a [float] (an exact binary fraction here) for [e < 0]. *)
Inductive number :=
| PyInt (z : Z)
| PyFloat (q : Q).

(** [2 ** e]; the float is exact for the exponents the script reaches
    (at least -96, the prefix of a parsed network being at most 128). *)
Definition pow2 (e : Z) : number :=
  if 0 <=? e then PyInt (2 ^ e) else PyFloat (Qinv (inject_Z (2 ^ (- e)))).

(** [a < b] for a number [a] and an int [b] *)
Definition number_lt (a : number) (b : Z) : bool :=
  match a with
  | PyInt z => z <? b
  | PyFloat q => negb (Qle_bool (inject_Z b) q)
  end.

(** [a > b] for an int [a] and a number [b] *)
Definition int_gt (a : Z) (b : number) : bool := number_lt b a.

(** [str(n)] for an int (of fewer than 4300 digits, as every int that
    [argparse] hands to the script) *)
Definition str (z : Z) : string := NilZero.string_of_int (Z.to_int z).

(** [f"{x}"] for a value that is an int or [None] *)
Definition format (x : option Z) : string :=
  match x with
  | Some z => str z
  | None => "None"
  end.

(** Truth value of an optional int: [None] and [0] are false. *)
Definition truthy (x : option Z) : bool :=
  match x with
  | Some z => negb (z =? 0)
  | None => false
  end.

(** [s.isascii() and s.isdigit()] followed by [int(s)]: the value of a
    non-empty string of ASCII decimal digits, [None] for any other string. *)
Definition int_of_digits (s : string) : option Z :=
  option_map Z.of_uint (NilZero.uint_of_string s).

(** [c in s] for a character *)
Fixpoint contains (c : ascii) (s : string) : bool :=
  match s with
  | EmptyString => false
  | String a s' => Ascii.eqb a c || contains c s'
  end.

(** [s.split(sep)] for a one-character separator *)
Fixpoint split (sep : ascii) (s : string) : list string :=
  match s with
  | EmptyString => [EmptyString]
  | String a s' =>
      if Ascii.eqb a sep then EmptyString :: split sep s'
      else match split sep s' with
           | p :: ps => String a p :: ps
           | [] => [String a EmptyString]
           end
  end.

(** [sep.join(parts)] *)
Fixpoint join (sep : string) (parts : list string) : string :=
  match parts with
  | [] => EmptyString
  | [p] => p
  | p :: ps => p ++ sep ++ join sep ps
  end.

(** [s.partition(sep)]: the text before the first [sep] and, when there is
    one, the text after it. *)
Fixpoint partition (sep : ascii) (s : string) : string * option string :=
  match s with
  | EmptyString => (EmptyString, None)
  | String a s' =>
      if Ascii.eqb a sep then (EmptyString, Some s')
      else let (h, t) := partition sep s' in (String a h, t)
  end.

(** [range(start, stop)] *)
Definition range (start stop : Z) : list Z :=
  map (fun i => start + Z.of_nat i) (seq 0 (Z.to_nat (stop - start))).

(** [range(start, stop, step)] for [step > 0] (the script reaches it with a
    positive step only; [step = 0], where Python raises, yields [[]] here). *)
Definition range_step (start stop step : Z) : list Z :=
  map (fun i => start + Z.of_nat i * step)
      (seq 0 (Z.to_nat ((stop - start + step - 1) / step))).

(** [x.bit_length()] for [x >= 0] *)
Definition bit_length (x : Z) : Z :=
  if x =? 0 then 0 else Z.log2 x + 1.

(** The text of an exception or of a printed line: literal text, the [repr]
    of a string and formatted numbers are kept apart, so that no rendering
    of [repr] or of floats has to be fixed. *)
Inductive piece :=
| Text (s : string)
| Repr (s : string)
| Num (n : number).

Definition message := list piece.

Inductive exn :=
| ValueError (m : message)
| TypeError (m : message)
| IndexError (m : message).

(** What a call does: it returns a value, raises an exception, or ends the
    process through [exit(status)] after having printed [stdout]. *)
Inductive outcome (A : Type) :=
| Return (a : A)
| Raise (e : exn)
| Exit (status : Z) (stdout : list message).

Arguments Return {A} a.
Arguments Raise {A} e.
Arguments Exit {A} status stdout.

Definition bind {A B} (m : outcome A) (k : A -> outcome B) : outcome B :=
  match m with
  | Return a => k a
  | Raise e => Raise e
  | Exit s out => Exit s out
  end.

(** A [for] loop that builds a list, stopping at the first exception. *)
Fixpoint for_each {A B} (f : A -> outcome B) (l : list A) : outcome (list B) :=
  match l with
  | [] => Return []
  | x :: xs =>
      bind (f x) (fun y => bind (for_each f xs) (fun ys => Return (y :: ys)))
  end.

End Py.

Notation "x <- m ;; k" := (Py.bind m (fun x => k))
  (at level 61, m at next level, right associativity).

Import Py.

(** ** The part of CPython's [ipaddress] module the script uses

    Exceptions the module raises and catches itself ([AddressValueError],
    [NetmaskValueError] inside [ip_network]) are [None] of an [option];
    those that reach the script are [Raise]. *)

Module ipaddress.

(** The two address classes, [_BaseV4] and [_BaseV6]. *)
Inductive family := IPv4 | IPv6.

Definition _max_prefixlen (cls : family) : Z :=
  match cls with
  | IPv4 => 32
  | IPv6 => 128
  end.

Definition _ALL_ONES (cls : family) : Z := 2 ^ _max_prefixlen cls - 1.

Definition _version (cls : family) : Z :=
  match cls with
  | IPv4 => 4
  | IPv6 => 6
  end.

(** An [IPv4Address] or [IPv6Address] object ([_scope_id] is an attribute
    of the latter only). *)
Record Address := mkAddress {
  version : family;
  _ip : Z;
  _scope_id : option string
}.

(** An [IPv4Network] or [IPv6Network] object. *)
Record Network := mkNetwork {
  cls : family;
  network_address : Address;
  _prefixlen : Z
}.

(** [mask] of [_split_addr_prefix]: the text after ["/"], or the class's
    [_max_prefixlen] (an int) when there is none. *)
Inductive mask_arg :=
| MaskText (s : string)
| MaskInt (z : Z).

Definition _ip_int_from_prefix (c : family) (prefixlen : Z) : Z :=
  Z.lxor (_ALL_ONES c) (Z.shiftr (_ALL_ONES c) prefixlen).

Definition _count_righthand_zero_bits (number bits : Z) : Z :=
  if number =? 0 then bits
  else Z.min bits (bit_length (Z.land (Z.lnot number) (number - 1))).

(** [None]: the [ValueError] of a mask that mixes zeroes and ones. *)
Definition _prefix_from_ip_int (c : family) (ip_int : Z) : option Z :=
  let trailing_zeroes := _count_righthand_zero_bits ip_int (_max_prefixlen c) in
  let prefixlen := _max_prefixlen c - trailing_zeroes in
  let leading_ones := Z.shiftr ip_int trailing_zeroes in
  let all_ones := Z.shiftl 1 prefixlen - 1 in
  if leading_ones =? all_ones then Some prefixlen else None.

Definition _prefix_from_prefix_string (c : family) (prefixlen_str : string)
  : option Z :=
  match int_of_digits prefixlen_str with
  | Some prefixlen =>
      if (0 <=? prefixlen) && (prefixlen <=? _max_prefixlen c)
      then Some prefixlen else None
  | None => None
  end.

Definition _split_optional_netmask (address : string) : option (list string) :=
  let addr := split "/" address in
  if (2 <? Z.of_nat (List.length addr)) then None else Some addr.

Definition _split_addr_prefix (c : family) (address : string)
  : option (string * mask_arg) :=
  match _split_optional_netmask address with
  | Some (addr :: mask :: _) => Some (addr, MaskText mask)
  | Some [addr] => Some (addr, MaskInt (_max_prefixlen c))
  | _ => None
  end.

(** *** IPv4 *)

Definition _parse_octet (octet_str : string) : option Z :=
  match octet_str with
  | EmptyString => None
  | String first _ =>
      match int_of_digits octet_str with
      | None => None
      | Some octet_int =>
          if (3 <? Z.of_nat (String.length octet_str)) then None
          else if negb (String.eqb octet_str "0") && Ascii.eqb first "0"
          then None
          else if 255 <? octet_int then None
          else Some octet_int
      end
  end.

(** [int.from_bytes(map(_parse_octet, octets), 'big')], failing with the
    first octet that does. *)
Fixpoint from_octets (acc : Z) (octets : list string) : option Z :=
  match octets with
  | [] => Some acc
  | o :: os =>
      match _parse_octet o with
      | Some v => from_octets (256 * acc + v) os
      | None => None
      end
  end.

Definition v4_ip_int_from_string (ip_str : string) : option Z :=
  match ip_str with
  | EmptyString => None
  | _ =>
      let octets := split "." ip_str in
      if negb (Z.of_nat (List.length octets) =? 4) then None
      else from_octets 0 octets
  end.

(** [IPv4Address(address)] for a string *)
Definition IPv4Address (address : string) : option Address :=
  if contains "/" address then None
  else option_map (fun ip => mkAddress IPv4 ip None)
                  (v4_ip_int_from_string address).

Definition _prefix_from_ip_string (ip_str : string) : option Z :=
  match v4_ip_int_from_string ip_str with
  | None => None
  | Some ip_int =>
      match _prefix_from_ip_int IPv4 ip_int with
      | Some prefixlen => Some prefixlen
      | None => _prefix_from_ip_int IPv4 (Z.lxor ip_int (_ALL_ONES IPv4))
      end
  end.

(** [ip_int.to_bytes(4, 'big')] *)
Definition to_bytes4 (ip_int : Z) : list Z :=
  [Z.land (Z.shiftr ip_int 24) 255; Z.land (Z.shiftr ip_int 16) 255;
   Z.land (Z.shiftr ip_int 8) 255; Z.land ip_int 255].

Definition v4_string_from_ip_int (ip_int : Z) : string :=
  join "." (map str (to_bytes4 ip_int)).

(** *** IPv6 *)

Definition _split_scope_id (ip_str : string) : option (string * option string) :=
  match partition "%" ip_str with
  | (addr, None) => Some (addr, None)
  | (addr, Some scope_id) =>
      if String.eqb scope_id "" || contains "%" scope_id then None
      else Some (addr, Some scope_id)
  end.

(** The value of a character of [_HEX_DIGITS]. *)
Definition hex_digit (c : ascii) : option Z :=
  let n := Z.of_nat (nat_of_ascii c) in
  if (48 <=? n) && (n <=? 57) then Some (n - 48)
  else if (65 <=? n) && (n <=? 70) then Some (n - 55)
  else if (97 <=? n) && (n <=? 102) then Some (n - 87)
  else None.

Fixpoint hex_value (acc : Z) (s : string) : option Z :=
  match s with
  | EmptyString => Some acc
  | String c s' =>
      match hex_digit c with
      | Some d => hex_value (16 * acc + d) s'
      | None => None
      end
  end.

Definition _parse_hextet (hextet_str : string) : option Z :=
  match hex_value 0 hextet_str with
  | None => None
  | Some v =>
      if (4 <? Z.of_nat (String.length hextet_str)) then None
      else if String.eqb hextet_str "" then None
      else Some v
  end.

(** ['%x' % n] *)
Definition hex (n : Z) : string :=
  HexadecimalString.NilZero.string_of_uint (N.to_hex_uint (Z.to_N n)).

(** [ip_int <<= 16; ip_int |= _parse_hextet(part)] over [parts] *)
Fixpoint from_hextets (ip_int : Z) (parts : list string) : option Z :=
  match parts with
  | [] => Some ip_int
  | p :: ps =>
      match _parse_hextet p with
      | Some v => from_hextets (Z.lor (Z.shiftl ip_int 16) v) ps
      | None => None
      end
  end.

Definition is_empty (s : string) : bool := String.eqb s "".

(** [parts] after the conversion of an IPv4-style suffix. *)
Definition convert_v4_suffix (parts : list string) : option (list string) :=
  let last_part := last parts EmptyString in
  if contains "." last_part then
    match IPv4Address last_part with
    | None => None
    | Some a =>
        let ipv4_int := _ip a in
        Some (removelast parts
                ++ [hex (Z.land (Z.shiftr ipv4_int 16) 65535);
                    hex (Z.land ipv4_int 65535)])
    end
  else Some parts.

Definition v6_ip_int_from_string (ip_str : string) : option Z :=
  match ip_str with
  | EmptyString => None
  | _ =>
  let parts := split ":" ip_str in
  if Z.of_nat (List.length parts) <? 3 then None else
  match convert_v4_suffix parts with
  | None => None
  | Some parts =>
  let len := Z.of_nat (List.length parts) in
  if 9 <? len then None else
  let empties :=
    filter (fun i => is_empty (nth (Z.to_nat i) parts EmptyString))
           (range 1 (len - 1)) in
  let first_empty := is_empty (hd EmptyString parts) in
  let last_empty := is_empty (last parts EmptyString) in
  let parse (parts_hi parts_lo parts_skipped : Z) :=
    match from_hextets 0 (firstn (Z.to_nat parts_hi) parts) with
    | None => None
    | Some ip_int =>
        from_hextets (Z.shiftl ip_int (16 * parts_skipped))
                     (skipn (Z.to_nat (len - parts_lo)) parts)
    end in
  match empties with
  | [skip_index] =>
      let parts_hi := if first_empty then skip_index - 1 else skip_index in
      let parts_lo :=
        if last_empty then len - skip_index - 2 else len - skip_index - 1 in
      if first_empty && negb (parts_hi =? 0) then None
      else if last_empty && negb (parts_lo =? 0) then None
      else let parts_skipped := 8 - (parts_hi + parts_lo) in
           if parts_skipped <? 1 then None
           else parse parts_hi parts_lo parts_skipped
  | [] =>
      if negb (len =? 8) then None
      else if first_empty then None
      else if last_empty then None
      else parse len 0 0
  | _ => None
  end
  end
  end.

(** [IPv6Address(address)] for a string *)
Definition IPv6Address (address : string) : option Address :=
  if contains "/" address then None
  else match _split_scope_id address with
       | None => None
       | Some (addr_str, scope_id) =>
           option_map (fun ip => mkAddress IPv6 ip scope_id)
                      (v6_ip_int_from_string addr_str)
       end.

(** The scan of [_compress_hextets]: the start and length of the first
    longest run of ["0"] hextets. *)
Record zero_run := mkRun {
  best_doublecolon_start : Z;
  best_doublecolon_len : Z;
  doublecolon_start : Z;
  doublecolon_len : Z
}.

Definition scan_hextet (st : zero_run * Z) (hextet : string) : zero_run * Z :=
  let (r, index) := st in
  if String.eqb hextet "0" then
    let len := doublecolon_len r + 1 in
    let start :=
      if doublecolon_start r =? -1 then index else doublecolon_start r in
    if best_doublecolon_len r <? len
    then (mkRun start len start len, index + 1)
    else (mkRun (best_doublecolon_start r) (best_doublecolon_len r) start len,
          index + 1)
  else (mkRun (best_doublecolon_start r) (best_doublecolon_len r) (-1) 0,
        index + 1).

Definition _compress_hextets (hextets : list string) : list string :=
  let r := fst (fold_left scan_hextet hextets (mkRun (-1) 0 (-1) 0, 0)) in
  if 1 <? best_doublecolon_len r then
    let best_start := best_doublecolon_start r in
    let best_end := best_start + best_doublecolon_len r in
    let hextets1 :=
      if best_end =? Z.of_nat (List.length hextets)
      then hextets ++ [EmptyString] else hextets in
    let hextets2 :=
      firstn (Z.to_nat best_start) hextets1
        ++ [EmptyString] ++ skipn (Z.to_nat best_end) hextets1 in
    if best_start =? 0 then EmptyString :: hextets2 else hextets2
  else hextets.

(** The eight 16-bit groups of ['%032x' % ip_int], each printed by ['%x']. *)
Definition v6_string_from_ip_int (ip_int : Z) : string :=
  let hextets :=
    map (fun i => hex (Z.land (Z.shiftr ip_int (16 * (7 - i))) 65535))
        (range 0 8) in
  join ":" (_compress_hextets hextets).

(** *** Both families *)

(** [str(address)] *)
Definition str_address (a : Address) : string :=
  match version a with
  | IPv4 => v4_string_from_ip_int (_ip a)
  | IPv6 =>
      let ip_str := v6_string_from_ip_int (_ip a) in
      match _scope_id a with
      | Some scope_id => ip_str ++ "%" ++ scope_id
      | None => ip_str
      end
  end.

Definition Address_of_string (c : family) (address : string) : option Address :=
  match c with
  | IPv4 => IPv4Address address
  | IPv6 => IPv6Address address
  end.

(** The prefix length of [_make_netmask]: a mask text is a prefix length
    or, for IPv4 only, a netmask or hostmask in dotted form. *)
Definition _make_netmask (c : family) (arg : mask_arg) : option Z :=
  match arg with
  | MaskInt prefixlen =>
      if (0 <=? prefixlen) && (prefixlen <=? _max_prefixlen c)
      then Some prefixlen else None
  | MaskText s =>
      match _prefix_from_prefix_string c s with
      | Some prefixlen => Some prefixlen
      | None =>
          match c with
          | IPv4 => _prefix_from_ip_string s
          | IPv6 => None
          end
      end
  end.

(** [IPv4Network(address, strict=False)] and [IPv6Network(address,
    strict=False)] for a string: host bits of the address are masked off. *)
Definition Network_of_string (c : family) (address : string) : option Network :=
  match _split_addr_prefix c address with
  | None => None
  | Some (addr, mask) =>
      match Address_of_string c addr with
      | None => None
      | Some a =>
          match _make_netmask c mask with
          | None => None
          | Some prefixlen =>
              let packed := _ip a in
              let netmask := _ip_int_from_prefix c prefixlen in
              Some (mkNetwork c
                      (if negb (Z.land packed netmask =? packed)
                       then mkAddress c (Z.land packed netmask) None
                       else a)
                      prefixlen)
          end
      end
  end.

(** [ip_network(address, strict=False)] *)
Definition ip_network (address : string) : outcome Network :=
  match Network_of_string IPv4 address with
  | Some n => Return n
  | None =>
      match Network_of_string IPv6 address with
      | Some n => Return n
      | None =>
          Raise (ValueError
                   [Repr address;
                    Text " does not appear to be an IPv4 or IPv6 network"])
      end
  end.

Definition prefixlen (n : Network) : Z := _prefixlen n.

Definition netmask (n : Network) : Address :=
  mkAddress (cls n) (_ip_int_from_prefix (cls n) (_prefixlen n)) None.

Definition hostmask (n : Network) : Address :=
  mkAddress (cls n) (Z.lxor (_ip (netmask n)) (_ALL_ONES (cls n))) None.

Definition broadcast_address (n : Network) : Address :=
  mkAddress (cls n) (Z.lor (_ip (network_address n)) (_ip (hostmask n))) None.

(** [str(network)] *)
Definition str_network (n : Network) : string :=
  str_address (network_address n) ++ "/" ++ str (prefixlen n).

(** [list(network.hosts())]: the constructor rebinds [hosts] for the two
    longest prefixes (every address of the network, and the one address);
    otherwise the class's generator runs, which for IPv6 keeps the last
    address. *)
Definition hosts (n : Network) : list Address :=
  let network := _ip (network_address n) in
  let broadcast := _ip (broadcast_address n) in
  let address x := mkAddress (cls n) x None in
  if _prefixlen n =? _max_prefixlen (cls n) - 1
  then map address (range network (broadcast + 1))
  else if _prefixlen n =? _max_prefixlen (cls n)
  then [network_address n]
  else match cls n with
       | IPv4 => map address (range (network + 1) broadcast)
       | IPv6 => map address (range (network + 1) (broadcast + 1))
       end.

(** [IPv4Network((addr, prefixlen))] and its IPv6 counterpart for a pair of
    ints, strict: how [subnets] builds each child. *)
Definition Network_of_pair (c : family) (addr prefixlen : Z) : outcome Network :=
  if addr <? 0 then
    Raise (ValueError [Num (PyInt addr); Text " (< 0) is not permitted as an IPv";
                       Num (PyInt (_version c)); Text " address"])
  else if _ALL_ONES c <? addr then
    Raise (ValueError [Num (PyInt addr); Text " (>= 2**"; Num (PyInt (_max_prefixlen c));
                       Text ") is not permitted as an IPv";
                       Num (PyInt (_version c)); Text " address"])
  else if negb ((0 <=? prefixlen) && (prefixlen <=? _max_prefixlen c)) then
    Raise (ValueError [Num (PyInt prefixlen); Text " is not a valid netmask"])
  else
    let n := mkNetwork c (mkAddress c addr None) prefixlen in
    if negb (Z.land addr (_ip (netmask n)) =? addr)
    then Raise (ValueError [Text (str_network n); Text " has host bits set"])
    else Return n.

(** [list(network.subnets(new_prefix=new_prefix))] *)
Definition subnets (n : Network) (new_prefix : Z) : outcome (list Network) :=
  if _prefixlen n =? _max_prefixlen (cls n) then Return [n]
  else if new_prefix <? _prefixlen n then
    Raise (ValueError [Text "new prefix must be longer"])
  else
    let prefixlen_diff := new_prefix - _prefixlen n in
    if prefixlen_diff <? 0 then
      Raise (ValueError [Text "prefix length diff must be > 0"])
    else
      let new_prefixlen := _prefixlen n + prefixlen_diff in
      if _max_prefixlen (cls n) <? new_prefixlen then
        Raise (ValueError
                 [Text "prefix length diff "; Num (PyInt new_prefixlen);
                  Text " is invalid for netblock "; Text (str_network n)])
      else
        let start := _ip (network_address n) in
        let end_ := _ip (broadcast_address n) + 1 in
        let step := Z.shiftr (_ip (hostmask n) + 1) prefixlen_diff in
        for_each (fun new_addr => Network_of_pair (cls n) new_addr new_prefixlen)
                 (range_step start end_ step).

End ipaddress.

Import ipaddress.

(** ** The script [subnet.py] *)

(** The arguments [parse_arguments] returns: the address text, and the
    optional ints [--cidr] and [--subnets]. *)
Module args.
Record t := make {
  ip_address : string;
  cidr : option Z;
  subnets : option Z
}.
End args.

(** A result dict, its items in insertion order. *)
Definition dict := list (string * string).

(** [f"{ip_address}/{cidr}"] *)
Definition slash (ip_address : string) (cidr : option Z) : string :=
  ip_address ++ "/" ++ format cidr.

(** The text of the [ValueError] of line 41. *)
Definition too_many_subnets (subnets : Z) (max_subnets : number) (cidr : Z)
  : message :=
  [Text "Requested number of subnets ("; Num (PyInt subnets);
   Text ") exceeds the maximum possible ("; Num max_subnets;
   Text ") with CIDR "; Num (PyInt cidr); Text "."].

(** The text of the [ValueError] of [ip_network]. *)
Definition not_a_network (address : string) : message :=
  [Repr address; Text " does not appear to be an IPv4 or IPv6 network"].

(** The text of the [TypeError] of [None - None]. *)
Definition none_minus_none : message :=
  [Text "unsupported operand type(s) for -: 'NoneType' and 'NoneType'"].

(** The [try] block of [validate_input] (lines 30-43). *)
Definition validate_input_try (ip_address : string) (cidr subnets : option Z)
  : outcome unit :=
  ip_network_ <- match cidr with
                 | Some _ => ip_network (slash ip_address cidr)
                 | None => ip_network ip_address
                 end ;;
  let cidr := match cidr with
              | None => prefixlen ip_network_
              | Some c => c
              end in
  match subnets with
  | Some n =>
      if truthy subnets then
        let max_subnets := pow2 (32 - cidr) in
        if int_gt n max_subnets
        then Raise (ValueError (too_many_subnets n max_subnets cidr))
        else Return tt
      else Return tt
  | None => Return tt
  end.

(** [validate_input]: a [ValueError] of the [try] block is printed and the
    process ends with [exit(1)]; otherwise the function returns [None]. *)
Definition validate_input (ip_address : string) (cidr subnets : option Z)
  : outcome unit :=
  match validate_input_try ip_address cidr subnets with
  | Raise (ValueError e) => Exit 1 [Text "Input validation error: " :: e]
  | other => other
  end.

(** [f"{usable_ips[0]} - {usable_ips[-1]}" if usable_ips else "N/A"] *)
Definition usable_ip_range (usable_ips : list Address) : string :=
  match usable_ips with
  | [] => "N/A"
  | first :: _ =>
      str_address first ++ " - " ++ str_address (last usable_ips first)
  end.

Definition calculate_subnet_details (ip_address : string) (cidr : option Z)
  : outcome dict :=
  ip_network_ <- ip_network (slash ip_address cidr) ;;
  let subnet_mask := netmask ip_network_ in
  let network_address_ := network_address ip_network_ in
  let broadcast_address_ := broadcast_address ip_network_ in
  let usable_ips := hosts ip_network_ in
  Return [("Subnet Mask"%string, str_address subnet_mask);
          ("Network Address"%string, str_address network_address_);
          ("Broadcast Address"%string, str_address broadcast_address_);
          ("Usable IP Range"%string, usable_ip_range usable_ips)].

(** The loop test [2 ** (new_cidr - cidr) < subnets] agrees with the
    comparison of integers, a power with a negative exponent being a
    fraction between 0 and 1. *)
Lemma number_lt_pow2 (d n : Z) : number_lt (pow2 d) n = (2 ^ d <? n).
Proof.
  unfold pow2. destruct (Z.leb_spec 0 d) as [Hd | Hd]; [reflexivity |].
  rewrite (Z.pow_neg_r 2 d) by lia. cbn [number_lt].
  assert (Hp : 2 ^ 1 <= 2 ^ (- d)) by (apply Z.pow_le_mono_r; lia).
  destruct (2 ^ (- d)) as [| p | p] eqn:E; try (cbn in Hp; lia).
  unfold Qle_bool, Qinv, inject_Z. cbn in Hp |- *.
  destruct (Z.ltb_spec 0 n) as [Hn | Hn].
  - apply negb_true_iff, Z.leb_gt. nia.
  - apply negb_false_iff, Z.leb_le. nia.
Qed.

(** The [while] loop of lines 82-83, from the current value of [new_cidr];
    it ends for every count, since the power outgrows it. *)
Equations? while_loop (cidr subnets new_cidr : Z) : Z
  by wf (Z.to_nat (subnets - 2 ^ (new_cidr - cidr))
         + Z.to_nat (cidr - new_cidr))%nat lt :=
  while_loop cidr subnets new_cidr
    with inspect (number_lt (pow2 (new_cidr - cidr)) subnets) := {
    | exist _ true _ => while_loop cidr subnets (new_cidr + 1);
    | exist _ false _ => new_cidr }.
Proof.
  rewrite number_lt_pow2 in e. apply Z.ltb_lt in e.
  replace (new_cidr + 1 - cidr) with (new_cidr - cidr + 1) by lia.
  replace (cidr - (new_cidr + 1)) with (- (new_cidr - cidr) - 1) by lia.
  replace (cidr - new_cidr) with (- (new_cidr - cidr)) by lia.
  generalize dependent (new_cidr - cidr). intros d Hlt.
  destruct (Z.lt_trichotomy d 0) as [Hd | [-> | Hd]].
  - rewrite (Z.pow_neg_r 2 d) in Hlt |- * by lia.
    assert (0 <= 2 ^ (d + 1) <= 1).
    { destruct (Z.eq_dec (d + 1) 0) as [-> | Hne];
        [cbn; lia | rewrite Z.pow_neg_r by lia; lia]. }
    lia.
  - cbn in *. lia.
  - rewrite Z.pow_add_r, Z.pow_1_r by lia.
    assert (0 < 2 ^ d) by (apply Z.pow_pos_nonneg; lia).
    lia.
Qed.

(** The dict built for one subnet (lines 90-96): [list(subnet.hosts())[0]]
    raises [IndexError] on an empty list. *)
Definition subnet_details (subnet : Network) : outcome dict :=
  match hosts subnet with
  | [] => Raise (IndexError [Text "list index out of range"])
  | first :: _ =>
      Return [("Subnet"%string, str_network subnet);
              ("Subnet Mask"%string, str_address (netmask subnet));
              ("Network Address"%string, str_address (network_address subnet));
              ("Broadcast Address"%string,
               str_address (broadcast_address subnet));
              ("Usable IP Range"%string,
               (str_address first ++ " - "
                  ++ str_address (last (hosts subnet) first))%string)]
  end.

(** [calculate_multiple_subnets]: with [cidr = None] the loop test
    [new_cidr - cidr] raises [TypeError] before anything else is done. *)
Definition calculate_multiple_subnets
  (ip_address : string) (cidr : option Z) (subnets : Z) : outcome (list dict) :=
  match cidr with
  | None =>
      Raise (TypeError none_minus_none)
  | Some c =>
      let new_cidr := while_loop c subnets c in
      ip_network_ <- ip_network (slash ip_address cidr) ;;
      subnet_list <- ipaddress.subnets ip_network_ new_cidr ;;
      for_each subnet_details subnet_list
  end.

(** The lines [display_results] prints for one dict. *)
Definition display_items (indent : string) (d : dict) : list message :=
  map (fun kv => [Text (indent ++ fst kv ++ ": " ++ snd kv)%string]) d.

(** The lines printed for the [i]-th and later subnets of a list. *)
Fixpoint display_subnets (i : Z) (results : list dict) : list message :=
  match results with
  | [] => []
  | subnet :: rest =>
      ([Text ("Subnet " ++ str i ++ ":")%string] :: display_items "  " subnet)
        ++ [[Text EmptyString]] ++ display_subnets (i + 1) rest
  end.

(** [display_results]: [results] is one dict or a list of dicts. *)
Definition display_results (results : dict + list dict) : list message :=
  match results with
  | inr l => display_subnets 1 l
  | inl d => display_items EmptyString d
  end.

(** [main] on the parsed arguments; [Return] carries what was printed. *)
Definition main (a : args.t) : outcome (list message) :=
  _ <- validate_input (args.ip_address a) (args.cidr a) (args.subnets a) ;;
  results <- match args.subnets a with
             | Some n =>
                 if truthy (args.subnets a) then
                   l <- calculate_multiple_subnets
                          (args.ip_address a) (args.cidr a) n ;;
                   Return (inr l)
                 else
                   d <- calculate_subnet_details
                          (args.ip_address a) (args.cidr a) ;;
                   Return (inl d)
             | None =>
                 d <- calculate_subnet_details
                        (args.ip_address a) (args.cidr a) ;;
                 Return (inl d)
             end ;;
  Return (display_results results).

(** ** Vocabulary of the statements *)

(** An ASCII decimal digit. *)
Definition is_digit (c : ascii) : bool :=
  let n := nat_of_ascii c in (48 <=? n)%nat && (n <=? 57)%nat.

(** The [IPv4Address] object of a 32-bit value. *)
Definition v4addr (x : Z) : Address := mkAddress IPv4 x None.

(** The network with first address [n] and prefix length [p]. *)
Definition v4net (n p : Z) : Network := mkNetwork IPv4 (v4addr n) p.

(** The first address of the block of size [2 ^ (32 - p)] that holds [a]. *)
Definition block_start (a p : Z) : Z := 2 ^ (32 - p) * (a / 2 ^ (32 - p)).

(** A block of size [2 ^ (32 - p)] inside the 32-bit address space. *)
Definition aligned (n p : Z) : Prop :=
  (exists m, n = 2 ^ (32 - p) * m) /\ 0 <= n /\ n + 2 ^ (32 - p) <= 2 ^ 32.

(** The text ["first - last"] of two IPv4 addresses. *)
Definition range_text (first last_ : Z) : string :=
  (str_address (v4addr first) ++ " - " ++ str_address (v4addr last_))%string.

(** [d[key]] *)
Fixpoint get (key : string) (d : dict) : option string :=
  match d with
  | [] => None
  | (k, v) :: rest => if String.eqb k key then Some v else get key rest
  end.

(** The children of a block: the [i]-th starts [i] child blocks further. *)
Definition children (n p q : Z) : list Network :=
  map (fun i => v4net (n + Z.of_nat i * 2 ^ (32 - q)) q)
      (seq 0 (Z.to_nat (2 ^ (q - p)))).

(** The dict [subnet_details] returns for a subnet with hosts. *)
Definition details (subnet : Network) : dict :=
  [("Subnet"%string, str_network subnet);
   ("Subnet Mask"%string, str_address (netmask subnet));
   ("Network Address"%string, str_address (network_address subnet));
   ("Broadcast Address"%string, str_address (broadcast_address subnet));
   ("Usable IP Range"%string, usable_ip_range (hosts subnet))].

(** The loop of lines 82-83 run for at most [fuel] executions of its body:
    [None] when the test still holds after them. *)
Fixpoint while_fuel (fuel : nat) (cidr subnets new_cidr : Z) : option Z :=
  if number_lt (pow2 (new_cidr - cidr)) subnets then
    match fuel with
    | O => None
    | S fuel' => while_fuel fuel' cidr subnets (new_cidr + 1)
    end
  else Some new_cidr.

(** * Properties *)

(** [0 < 2 ^ e] as hypothesis [H], for an exponent that [lia] sees to be
    non-negative. *)
Ltac pow2_pos e H := assert (H : 0 < 2 ^ e) by (apply Z.pow_pos_nonneg; lia).

(** ** Strings *)

Section Strings.

Lemma split_nonempty (sep : ascii) (s : string) : split sep s <> [].
Proof.
  destruct s as [| a s]; cbn; [discriminate |].
  destruct (Ascii.eqb a sep); [discriminate |].
  destruct (split sep s); discriminate.
Qed.

Lemma split_without (sep : ascii) (s : string) :
  contains sep s = false -> split sep s = [s].
Proof.
  induction s as [| a s IH]; cbn; [reflexivity |].
  intros H. apply orb_false_iff in H as [Ha Hs].
  rewrite Ha, (IH Hs). reflexivity.
Qed.

Lemma split_append (sep : ascii) (s t : string) :
  split sep (s ++ String sep t) = (split sep s ++ split sep t)%list.
Proof.
  induction s as [| a s IH]; cbn.
  - rewrite Ascii.eqb_refl. reflexivity.
  - destruct (Ascii.eqb a sep); [rewrite IH; reflexivity |].
    rewrite IH. destruct (split sep s) eqn:E; [| reflexivity].
    exfalso. exact (split_nonempty _ _ E).
Qed.

Lemma contains_append (c : ascii) (s t : string) :
  contains c (s ++ t) = contains c s || contains c t.
Proof.
  induction s as [| a s IH]; cbn; [reflexivity |].
  rewrite IH. apply orb_assoc.
Qed.

(** A character other than the separator occurs in a string only if it
    occurs in one of the parts. *)
Lemma contains_split (c sep : ascii) (s : string) :
  Forall (fun p => contains c p = false) (split sep s) ->
  Ascii.eqb sep c = false ->
  contains c s = false.
Proof.
  intros H Hsep. induction s as [| a s IH]; cbn in *; [reflexivity |].
  destruct (Ascii.eqb a sep) eqn:Ea.
  - apply Ascii.eqb_eq in Ea. subst a. rewrite Hsep. cbn.
    apply IH. inversion H; assumption.
  - destruct (split sep s) as [| p ps] eqn:E.
    + exfalso. exact (split_nonempty _ _ E).
    + inversion H as [| ? ? Hp Hps]; subst. cbn in Hp.
      apply orb_false_iff in Hp as [Hac Hpc]. rewrite Hac. cbn.
      apply IH. constructor; assumption.
Qed.

Lemma contains_partition (c sep : ascii) (s : string) :
  contains c s = false -> contains c (fst (partition sep s)) = false.
Proof.
  induction s as [| a s IH]; cbn; [reflexivity |].
  intros H. apply orb_false_iff in H as [Ha Hs].
  destruct (Ascii.eqb a sep); [reflexivity |].
  specialize (IH Hs). destruct (partition sep s) as [h t]. cbn in *.
  rewrite Ha, IH. reflexivity.
Qed.

Lemma digits_only (c : ascii) (s : string) (d : Decimal.uint) :
  NilEmpty.uint_of_string s = Some d -> is_digit c = false ->
  contains c s = false.
Proof.
  revert d. induction s as [| a s IH]; cbn; intros d H Hc; [reflexivity |].
  destruct (NilEmpty.uint_of_string s) as [d' |] eqn:E; [| discriminate].
  rewrite (IH d' eq_refl Hc), orb_false_r.
  apply uint_of_char_spec in H.
  destruct (Ascii.eqb_spec a c) as [-> |]; [| reflexivity].
  exfalso.
  repeat (destruct H as [[-> _] | H]; [discriminate Hc |]).
  destruct H as [-> _]. discriminate Hc.
Qed.

Lemma int_of_digits_only (c : ascii) (s : string) (z : Z) :
  int_of_digits s = Some z -> is_digit c = false -> contains c s = false.
Proof.
  unfold int_of_digits, NilZero.uint_of_string.
  destruct s as [| a s]; [discriminate |].
  destruct (NilEmpty.uint_of_string (String a s)) as [d |] eqn:E;
    [| discriminate].
  intros _. exact (digits_only c _ d E).
Qed.

Lemma eqb_digit (a c : ascii) :
  is_digit a = true -> is_digit c = false -> Ascii.eqb a c = false.
Proof.
  intros Ha Hc. destruct (Ascii.eqb_spec a c) as [-> |]; [| reflexivity].
  rewrite Ha in Hc. discriminate Hc.
Qed.

Lemma string_of_uint_digits (c : ascii) (d : Decimal.uint) :
  is_digit c = false -> contains c (NilEmpty.string_of_uint d) = false.
Proof.
  intros Hc.
  induction d; cbn [contains NilEmpty.string_of_uint]; try reflexivity;
    rewrite IHd, orb_false_r; apply eqb_digit; first [reflexivity | exact Hc].
Qed.

Lemma string_of_uint_zero_digits (c : ascii) (d : Decimal.uint) :
  is_digit c = false -> contains c (NilZero.string_of_uint d) = false.
Proof.
  intros Hc. unfold NilZero.string_of_uint.
  destruct d; try (apply string_of_uint_digits; exact Hc).
  cbn [contains]. rewrite orb_false_r. apply eqb_digit; [reflexivity | exact Hc].
Qed.

(** [str(z)] consists of digits after an optional minus sign. *)
Lemma str_chars (c : ascii) (z : Z) :
  is_digit c = false -> Ascii.eqb "-" c = false -> contains c (str z) = false.
Proof.
  intros Hc Hm. unfold str, NilZero.string_of_int.
  destruct (Z.to_int z) as [d | d].
  - apply string_of_uint_zero_digits. exact Hc.
  - cbn [contains]. rewrite Hm. cbn [orb].
    apply string_of_uint_zero_digits. exact Hc.
Qed.

Lemma to_uint_not_nil (p : positive) : Pos.to_uint p <> Decimal.Nil.
Proof.
  intros H. pose proof (DecimalPos.Unsigned.of_to p) as E.
  rewrite H in E. discriminate E.
Qed.

(** [int(str(z)) == z] for [z >= 0]; [str(z)] of a negative int is not a
    string of digits. *)
Lemma int_of_digits_str (z : Z) :
  int_of_digits (str z) = if 0 <=? z then Some z else None.
Proof.
  unfold int_of_digits, str. destruct z as [| p | p]; cbn [Z.to_int Z.leb Z.compare].
  - reflexivity.
  - cbn [NilZero.string_of_int]. rewrite NilZero.usu by apply to_uint_not_nil.
    cbn [option_map]. unfold Z.of_uint.
    rewrite DecimalPos.Unsigned.of_to. reflexivity.
  - cbn [NilZero.string_of_int NilZero.uint_of_string NilEmpty.uint_of_string].
    destruct (NilEmpty.uint_of_string _); reflexivity.
Qed.

End Strings.

(** ** Masks of IPv4 networks *)

Section Masks.

Lemma all_ones_v4 : _ALL_ONES IPv4 = Z.ones 32.
Proof. reflexivity. Qed.

Lemma testbit_below (a n : Z) : 0 <= a < 2 ^ 32 -> 32 <= n -> Z.testbit a n = false.
Proof.
  intros Ha Hn. destruct (Z.eq_dec a 0) as [-> | Hne]; [apply Z.bits_0 |].
  apply Z.bits_above_log2; [lia |].
  apply Z.lt_le_trans with 32; [| exact Hn].
  apply Z.log2_lt_pow2; lia.
Qed.

Lemma netmask_testbit (p n : Z) :
  0 <= p <= 32 -> 0 <= n ->
  Z.testbit (_ip_int_from_prefix IPv4 p) n = (32 - p <=? n) && (n <? 32).
Proof.
  intros Hp Hn. unfold _ip_int_from_prefix. rewrite all_ones_v4.
  rewrite Z.lxor_spec, Z.shiftr_spec by lia.
  rewrite !Z.testbit_ones_nonneg by lia.
  destruct (Z.ltb_spec n 32), (Z.ltb_spec (n + p) 32), (Z.leb_spec (32 - p) n);
    cbn; lia || reflexivity.
Qed.

(** The mask of a prefix has its top [p] bits set and the rest clear. *)
Lemma netmask_value (p : Z) :
  0 <= p <= 32 -> _ip_int_from_prefix IPv4 p = 2 ^ 32 - 2 ^ (32 - p).
Proof.
  intros Hp.
  replace (2 ^ 32 - 2 ^ (32 - p)) with (Z.shiftl (Z.ones p) (32 - p)).
  - apply Z.bits_inj'. intros n Hn.
    rewrite netmask_testbit, Z.shiftl_spec by lia.
    destruct (Z.leb_spec (32 - p) n).
    + rewrite Z.testbit_ones_nonneg by lia.
      destruct (Z.ltb_spec n 32), (Z.ltb_spec (n - (32 - p)) p);
        cbn; lia || reflexivity.
    + rewrite Z.testbit_neg_r by lia. reflexivity.
  - rewrite Z.shiftl_mul_pow2, Z.ones_equiv by lia.
    unfold Z.pred. rewrite Z.mul_add_distr_r, <- Z.pow_add_r by lia.
    replace (p + (32 - p)) with 32 by lia. lia.
Qed.

Lemma hostmask_value (p : Z) :
  0 <= p <= 32 ->
  Z.lxor (_ip_int_from_prefix IPv4 p) (_ALL_ONES IPv4) = 2 ^ (32 - p) - 1.
Proof.
  intros Hp. rewrite Z.sub_1_r, <- Z.ones_equiv.
  apply Z.bits_inj'. intros n Hn.
  rewrite Z.lxor_spec, netmask_testbit, all_ones_v4 by lia.
  rewrite !Z.testbit_ones_nonneg by lia.
  destruct (Z.ltb_spec n 32), (Z.ltb_spec n (32 - p)), (Z.leb_spec (32 - p) n);
    cbn; lia || reflexivity.
Qed.

(** Masking an address keeps its multiple of the block size. *)
Lemma land_netmask (a p : Z) :
  0 <= a < 2 ^ 32 -> 0 <= p <= 32 ->
  Z.land a (_ip_int_from_prefix IPv4 p) = 2 ^ (32 - p) * (a / 2 ^ (32 - p)).
Proof.
  intros Ha Hp.
  rewrite Z.mul_comm, <- Z.shiftr_div_pow2, <- Z.shiftl_mul_pow2 by lia.
  apply Z.bits_inj'. intros n Hn.
  rewrite Z.land_spec, netmask_testbit, Z.shiftl_spec by lia.
  destruct (Z.leb_spec (32 - p) n).
  - rewrite Z.shiftr_spec by lia. replace (n - (32 - p) + (32 - p)) with n by lia.
    destruct (Z.ltb_spec n 32); cbn; [apply andb_true_r |].
    rewrite testbit_below by lia. reflexivity.
  - rewrite (Z.testbit_neg_r _ (n - (32 - p))) by lia. cbn. apply andb_false_r.
Qed.

Lemma land_block_zero (k m : Z) : 0 <= k -> Z.land (2 ^ k * m) (2 ^ k - 1) = 0.
Proof.
  intros Hk. rewrite Z.sub_1_r, <- Z.ones_equiv, Z.land_ones by lia.
  rewrite Z.mul_comm. apply Z.mod_mul. apply Z.pow_nonzero; lia.
Qed.

(** Setting the host bits of a block's first address gives its last. *)
Lemma lor_block (k m : Z) :
  0 <= k -> Z.lor (2 ^ k * m) (2 ^ k - 1) = 2 ^ k * m + (2 ^ k - 1).
Proof.
  intros Hk. rewrite <- Z.lxor_lor by (apply land_block_zero; exact Hk).
  symmetry. apply Z.add_nocarry_lxor, land_block_zero. exact Hk.
Qed.

End Masks.

(** ** Construction of an IPv4 network from text *)

Section Construction.

Lemma parse_octet_range (o : string) (v : Z) :
  _parse_octet o = Some v -> 0 <= v <= 255 /\ int_of_digits o = Some v.
Proof.
  unfold _parse_octet. destruct o as [| a o]; [discriminate |].
  destruct (int_of_digits (String a o)) as [x |] eqn:E; [| discriminate].
  destruct (3 <? _); [discriminate |].
  destruct (negb _ && _); [discriminate |].
  destruct (Z.ltb_spec 255 x); [discriminate |].
  intros [= <-]. split; [| reflexivity]. split; [| lia].
  unfold int_of_digits in E.
  destruct (NilZero.uint_of_string _) as [d |]; [| discriminate].
  cbn in E. injection E as <-. unfold Z.of_uint. apply N2Z.is_nonneg.
Qed.

Lemma from_octets_range (os : list string) (acc v : Z) :
  from_octets acc os = Some v ->
  acc * 256 ^ Z.of_nat (List.length os) <= v
    < (acc + 1) * 256 ^ Z.of_nat (List.length os)
  /\ Forall (fun o => exists x, int_of_digits o = Some x) os.
Proof.
  revert acc. induction os as [| o os IH]; intros acc H.
  - cbn in H. injection H as <-. cbn. split; [lia | constructor].
  - cbn [from_octets] in H.
    destruct (_parse_octet o) as [x |] eqn:E; [| discriminate].
    apply parse_octet_range in E as [Hx Hd].
    apply IH in H as [Hv Hall]. split.
    + cbn [List.length]. rewrite Nat2Z.inj_succ, Z.pow_succ_r by lia.
      assert (0 < 256 ^ Z.of_nat (List.length os)) by (apply Z.pow_pos_nonneg; lia).
      nia.
    + constructor; [exists x; exact Hd | exact Hall].
Qed.

(** What a valid dotted-quad text gives: a 32-bit value, and a text made
    of digits and dots only. *)
Lemma IPv4Address_inv (ip : string) (a : Address) :
  IPv4Address ip = Some a ->
  a = mkAddress IPv4 (_ip a) None /\ 0 <= _ip a < 2 ^ 32
  /\ contains "/" ip = false
  /\ (forall c, is_digit c = false -> Ascii.eqb "." c = false ->
                contains c ip = false).
Proof.
  unfold IPv4Address. destruct (contains "/" ip) eqn:Hs; [discriminate |].
  destruct (v4_ip_int_from_string ip) as [n |] eqn:E; [| discriminate].
  cbn. intros [= <-]. cbn. split; [reflexivity |].
  unfold v4_ip_int_from_string in E. destruct ip as [| c0 ip0]; [discriminate |].
  set (ip := String c0 ip0) in *.
  destruct (Z.eqb_spec (Z.of_nat (List.length (split "." ip))) 4) as [Hl |];
    [| discriminate].
  cbn [negb] in E. apply from_octets_range in E as [Hv Hall].
  rewrite Hl in Hv. split; [cbn in Hv |- *; lia |]. split; [reflexivity |].
  intros c Hc Hdot. apply (contains_split c "." ip); [| exact Hdot].
  eapply Forall_impl; [| exact Hall].
  intros o [x Hx]. exact (int_of_digits_only c o x Hx Hc).
Qed.

(** [f"{ip_address}/{cidr}"] splits at its slash into the address text and
    the prefix text. *)
Lemma split_slash (ip : string) (cidr : option Z) :
  contains "/" ip = false -> contains "/" (format cidr) = false ->
  split "/" (slash ip cidr) = [ip; format cidr].
Proof.
  intros Hip Hc. unfold slash.
  change ("/" ++ format cidr)%string with (String "/" (format cidr)).
  rewrite split_append, (split_without _ _ Hip), (split_without _ _ Hc).
  reflexivity.
Qed.

(** A valid address text with a prefix length in range. *)
Section ValidNetwork.

Variables (ip : string) (a : Address) (p : Z).
Hypothesis Ha : IPv4Address ip = Some a.
Hypothesis Hp : 0 <= p <= 32.

Lemma Network_of_string_v4 :
  Network_of_string IPv4 (slash ip (Some p))
  = Some (v4net (block_start (_ip a) p) p).
Proof.
  pose proof (IPv4Address_inv ip a Ha) as (Hrec & Hr & Hs & _).
  unfold Network_of_string, _split_addr_prefix, _split_optional_netmask.
  rewrite split_slash;
    [| exact Hs | apply str_chars; reflexivity].
  cbn [List.length Z.of_nat Z.ltb Z.compare Pos.of_succ_nat Pos.succ Pos.compare
       Pos.compare_cont Address_of_string format].
  rewrite Ha. unfold _make_netmask, _prefix_from_prefix_string.
  rewrite int_of_digits_str.
  assert (H0 : (0 <=? p) = true) by (apply Z.leb_le; lia).
  assert (H32 : (p <=? 32) = true) by (apply Z.leb_le; lia).
  change (_max_prefixlen IPv4) with 32.
  rewrite H0. cbv beta iota. rewrite H0, H32. cbn [andb].
  rewrite land_netmask by assumption. fold (block_start (_ip a) p).
  unfold v4net, v4addr.
  destruct (Z.eqb_spec (block_start (_ip a) p) (_ip a)) as [E | E]; cbn [negb].
  - rewrite E, <- Hrec. reflexivity.
  - reflexivity.
Qed.

Lemma ip_network_v4 :
  ip_network (slash ip (Some p)) = Return (v4net (block_start (_ip a) p) p).
Proof. unfold ip_network. rewrite Network_of_string_v4. reflexivity. Qed.

End ValidNetwork.

Lemma block_start_aligned (a p : Z) :
  0 <= a < 2 ^ 32 -> 0 <= p <= 32 -> aligned (block_start a p) p.
Proof.
  intros Ha Hp. unfold aligned, block_start.
  pow2_pos (32 - p) Hk.
  assert (H32 : 2 ^ 32 = 2 ^ (32 - p) * 2 ^ p).
  { rewrite <- Z.pow_add_r by lia. f_equal. lia. }
  split; [eexists; reflexivity |].
  assert (0 <= a / 2 ^ (32 - p)) by (apply Z.div_pos; lia).
  assert (a / 2 ^ (32 - p) < 2 ^ p).
  { apply Z.div_lt_upper_bound; lia. }
  nia.
Qed.

Lemma block_start_bounds (a p : Z) :
  0 <= a < 2 ^ 32 -> 0 <= p <= 32 ->
  block_start a p <= a < block_start a p + 2 ^ (32 - p).
Proof.
  intros Ha Hp. unfold block_start.
  pow2_pos (32 - p) Hk.
  pose proof (Z.div_mod a (2 ^ (32 - p)) ltac:(lia)).
  pose proof (Z.mod_pos_bound a (2 ^ (32 - p)) Hk). lia.
Qed.

Lemma netmask_v4net (n p : Z) :
  0 <= p <= 32 -> _ip (netmask (v4net n p)) = 2 ^ 32 - 2 ^ (32 - p).
Proof. intros Hp. apply netmask_value. exact Hp. Qed.

Lemma hostmask_v4net (n p : Z) :
  0 <= p <= 32 -> _ip (hostmask (v4net n p)) = 2 ^ (32 - p) - 1.
Proof. intros Hp. apply hostmask_value. exact Hp. Qed.

Lemma broadcast_v4net (n p : Z) :
  aligned n p -> 0 <= p <= 32 ->
  _ip (broadcast_address (v4net n p)) = n + 2 ^ (32 - p) - 1.
Proof.
  intros [[m ->] _] Hp. unfold broadcast_address.
  cbn [_ip]. rewrite hostmask_v4net by exact Hp.
  cbn [network_address v4net _ip v4addr]. rewrite lor_block by lia. lia.
Qed.

End Construction.

(** ** Hosts of an IPv4 network *)

Section Hosts.

Lemma range_length (a b : Z) : List.length (range a b) = Z.to_nat (b - a).
Proof. unfold range. rewrite length_map, length_seq. reflexivity. Qed.

Lemma range_cons (a b : Z) : a < b -> range a b = a :: range (a + 1) b.
Proof.
  intros H. unfold range.
  replace (Z.to_nat (b - a)) with (S (Z.to_nat (b - (a + 1)))) by lia.
  cbn [seq map]. rewrite Z.add_0_r. f_equal.
  rewrite <- seq_shift, map_map. apply map_ext. intros i. lia.
Qed.

Lemma range_last {A} (f : Z -> A) (a b : Z) (d : A) :
  a < b -> last (map f (range a b)) d = f (b - 1).
Proof.
  intros H. unfold range.
  replace (Z.to_nat (b - a)) with (S (Z.to_nat (b - a - 1))) by lia.
  rewrite seq_S, !map_app. cbn [map]. rewrite last_last.
  f_equal. lia.
Qed.

(** The rendering of a non-empty run of host addresses. *)
Lemma usable_ip_range_run (f : Z -> Address) (a b : Z) :
  a < b ->
  usable_ip_range (map f (range a b))
  = (str_address (f a) ++ " - " ++ str_address (f (b - 1)))%string.
Proof.
  intros H. unfold usable_ip_range.
  destruct (map f (range a b)) as [| first rest] eqn:E;
    rewrite (range_cons a b H) in E; [discriminate E |].
  injection E as <- Hrest.
  change (f a :: rest) with ([f a] ++ rest)%list. rewrite <- Hrest.
  change ([f a] ++ map f (range (a + 1) b))%list
    with (map f (a :: range (a + 1) b)).
  rewrite <- (range_cons a b H), range_last by exact H. reflexivity.
Qed.

Lemma hosts_v4net (n p : Z) :
  aligned n p -> 0 <= p <= 32 ->
  hosts (v4net n p)
  = if p <=? 30 then map v4addr (range (n + 1) (n + 2 ^ (32 - p) - 1))
    else if p =? 31 then [v4addr n; v4addr (n + 1)]
    else [v4addr n].
Proof.
  intros Hn Hp. unfold hosts.
  rewrite broadcast_v4net by assumption.
  cbn [_prefixlen cls v4net network_address _ip v4addr].
  change (_max_prefixlen IPv4) with 32. change (32 - 1) with 31.
  destruct (Z.leb_spec p 30) as [H30 | H30].
  - destruct (Z.eqb_spec p 31); [lia |]. destruct (Z.eqb_spec p 32); [lia |].
    reflexivity.
  - destruct (Z.eqb_spec p 31) as [-> | H31].
    + change (2 ^ (32 - 31)) with 2.
      rewrite (range_cons n) by lia. rewrite (range_cons (n + 1)) by lia.
      unfold range. replace (Z.to_nat _) with 0%nat by lia. reflexivity.
    + destruct (Z.eqb_spec p 32); [reflexivity | lia].
Qed.

Lemma hosts_v4net_length (n p : Z) :
  aligned n p -> 0 <= p <= 32 ->
  Z.of_nat (List.length (hosts (v4net n p)))
  = if p <=? 30 then 2 ^ (32 - p) - 2 else if p =? 31 then 2 else 1.
Proof.
  intros Hn Hp. rewrite hosts_v4net by assumption.
  destruct (Z.leb_spec p 30); [| destruct (p =? 31); reflexivity].
  rewrite length_map, range_length.
  assert (2 ^ 2 <= 2 ^ (32 - p)) by (apply Z.pow_le_mono_r; lia).
  change (2 ^ 2) with 4 in *. lia.
Qed.

Lemma hosts_v4net_nonempty (n p : Z) :
  aligned n p -> 0 <= p <= 32 -> hosts (v4net n p) <> [].
Proof.
  intros Hn Hp H. pose proof (hosts_v4net_length n p Hn Hp) as L.
  rewrite H in L. cbn [List.length Z.of_nat] in L.
  assert (2 ^ 2 <= 2 ^ (32 - p) \/ 30 < p) as [H4 | H30].
  { destruct (Z.le_gt_cases p 30); [left; apply Z.pow_le_mono_r; lia | right; lia]. }
  - change (2 ^ 2) with 4 in H4.
    destruct (p <=? 30); [lia |]. destruct (p =? 31); lia.
  - destruct (Z.leb_spec p 30); [lia |]. destruct (p =? 31); lia.
Qed.

(** The "Usable IP Range" text of a network, by prefix length. *)
Lemma usable_ip_range_v4net (n p : Z) :
  aligned n p -> 0 <= p <= 32 ->
  usable_ip_range (hosts (v4net n p))
  = if p <=? 30 then range_text (n + 1) (n + 2 ^ (32 - p) - 2)
    else if p =? 31 then range_text n (n + 1)
    else range_text n n.
Proof.
  intros Hn Hp. rewrite hosts_v4net by assumption.
  destruct (Z.leb_spec p 30).
  - assert (2 ^ 2 <= 2 ^ (32 - p)) by (apply Z.pow_le_mono_r; lia).
    change (2 ^ 2) with 4 in *.
    rewrite usable_ip_range_run by lia. unfold range_text. do 4 f_equal. lia.
  - destruct (p =? 31); reflexivity.
Qed.

(** A rendered range holds a blank, which ["N/A"] does not. *)
Lemma usable_ip_range_not_NA (l : list Address) :
  l <> [] -> usable_ip_range l <> "N/A"%string.
Proof.
  intros Hl H. destruct l as [| first rest]; [contradiction |].
  cbn [usable_ip_range] in H.
  apply (f_equal (contains " ")) in H.
  rewrite !contains_append in H. cbn in H.
  rewrite orb_true_r in H. discriminate H.
Qed.

End Hosts.

(** ** Single-network mode: [calculate_subnet_details] *)

Lemma subnet_details_hosts (subnet : Network) :
  hosts subnet <> [] -> subnet_details subnet = Return (details subnet).
Proof.
  intros H. unfold subnet_details, details, usable_ip_range.
  destruct (hosts subnet); [contradiction | reflexivity].
Qed.

Lemma calculate_subnet_details_v4 (ip : string) (a : Address) (p : Z) :
  IPv4Address ip = Some a -> 0 <= p <= 32 ->
  let net := v4net (block_start (_ip a) p) p in
  calculate_subnet_details ip (Some p)
  = Return [("Subnet Mask"%string, str_address (netmask net));
            ("Network Address"%string, str_address (network_address net));
            ("Broadcast Address"%string, str_address (broadcast_address net));
            ("Usable IP Range"%string, usable_ip_range (hosts net))].
Proof.
  intros Ha Hp. unfold calculate_subnet_details.
  rewrite (ip_network_v4 ip a p Ha Hp). reflexivity.
Qed.

Lemma validate_input_v4 (ip : string) (a : Address) (p : Z) :
  IPv4Address ip = Some a -> 0 <= p <= 32 ->
  validate_input ip (Some p) None = Return tt.
Proof.
  intros Ha Hp. unfold validate_input, validate_input_try.
  rewrite (ip_network_v4 ip a p Ha Hp). reflexivity.
Qed.

(** C1 (amended): for a valid IPv4 address text and prefix length, the
    "Usable IP Range" field of [calculate_subnet_details], and of the dict
    built for the same network as a subnet, is never ["N/A"]:
    up to /30 it runs from the network address plus one to the broadcast
    address minus one, that is [2 ^ (32 - p) - 2] addresses; for /31 it is
    the two addresses of the network, from the network address to the
    broadcast address; for /32 it is the single address, twice. *)
Theorem usable_host_range_by_prefix (ip : string) (a : Address) (p : Z) :
  IPv4Address ip = Some a -> 0 <= p <= 32 ->
  let net := v4net (block_start (_ip a) p) p in
  let N := _ip (network_address net) in
  let B := _ip (broadcast_address net) in
  ip_network (slash ip (Some p)) = Return net
  /\ (exists d, calculate_subnet_details ip (Some p) = Return d
                /\ get "Usable IP Range" d = Some (usable_ip_range (hosts net)))
  /\ (subnet_details net = Return (details net)
      /\ get "Usable IP Range" (details net)
         = Some (usable_ip_range (hosts net)))
  /\ usable_ip_range (hosts net) <> "N/A"%string
  /\ (p <= 30 ->
      hosts net = map v4addr (range (N + 1) B)
      /\ Z.of_nat (List.length (hosts net)) = 2 ^ (32 - p) - 2
      /\ usable_ip_range (hosts net) = range_text (N + 1) (B - 1))
  /\ (p = 31 ->
      hosts net = [v4addr N; v4addr B]
      /\ usable_ip_range (hosts net) = range_text N B)
  /\ (p = 32 ->
      hosts net = [v4addr N]
      /\ usable_ip_range (hosts net) = range_text N N).
Proof.
  intros Ha Hp net N B.
  pose proof (IPv4Address_inv ip a Ha) as (_ & Hr & _).
  pose proof (block_start_aligned (_ip a) p Hr Hp) as Hal.
  assert (HB : B = N + 2 ^ (32 - p) - 1)
    by (apply broadcast_v4net; assumption).
  pose proof (hosts_v4net _ p Hal Hp) as Hh.
  pose proof (hosts_v4net_length _ p Hal Hp) as Hl.
  pose proof (usable_ip_range_v4net _ p Hal Hp) as Hu.
  fold net in Hh, Hl, Hu.
  change (block_start (_ip a) p) with N in Hh, Hu.
  split; [exact (ip_network_v4 ip a p Ha Hp) |].
  split.
  { eexists. split; [exact (calculate_subnet_details_v4 ip a p Ha Hp) |].
    reflexivity. }
  split.
  { split; [| reflexivity].
    apply subnet_details_hosts, hosts_v4net_nonempty; assumption. }
  split; [apply usable_ip_range_not_NA, hosts_v4net_nonempty; assumption |].
  split; [| split].
  - intros H30. assert (E : (p <=? 30) = true) by (apply Z.leb_le; lia).
    rewrite E in Hh, Hl, Hu.
    split; [| split].
    + rewrite Hh, HB. reflexivity.
    + exact Hl.
    + rewrite Hu, HB. f_equal. lia.
  - intros ->. change (2 ^ (32 - 31)) with 2 in HB.
    change (31 <=? 30) with false in Hh, Hu. change (31 =? 31) with true in Hh, Hu.
    cbv iota in Hh, Hu. replace B with (N + 1) by lia.
    split; assumption.
  - intros ->.
    change (32 <=? 30) with false in Hh, Hu. change (32 =? 31) with false in Hh, Hu.
    cbv iota in Hh, Hu. split; assumption.
Qed.

(** The theorem at 192.168.1.77/24: the range is 192.168.1.1 to
    192.168.1.254. *)
Lemma usable_host_range_by_prefix_witness :
  IPv4Address "192.168.1.77" = Some (v4addr 3232235853) /\ 0 <= 24 <= 32
  /\ exists d,
       calculate_subnet_details "192.168.1.77" (Some 24) = Return d
       /\ get "Usable IP Range" d = Some "192.168.1.1 - 192.168.1.254"%string.
Proof.
  assert (Ha : IPv4Address "192.168.1.77" = Some (v4addr 3232235853))
    by reflexivity.
  assert (Hp : 0 <= 24 <= 32) by lia.
  split; [exact Ha |]. split; [exact Hp |].
  destruct (usable_host_range_by_prefix _ _ _ Ha Hp)
    as (_ & (d & Hd & Hget) & _ & _ & H30 & _).
  exists d. split; [exact Hd |].
  rewrite Hget. destruct (H30 ltac:(lia)) as (_ & _ & ->).
  vm_compute. reflexivity.
Defined.

(** C1 as stated fails at 10.0.0.0/31: the field is not ["N/A"] but holds
    both addresses of the network. *)
Lemma usable_host_range_slash31 :
  exists d,
    calculate_subnet_details "10.0.0.0" (Some 31) = Return d
    /\ get "Usable IP Range" d = Some "10.0.0.0 - 10.0.0.1"%string
    /\ get "Usable IP Range" d <> Some "N/A"%string.
Proof.
  eexists. split; [vm_compute; reflexivity |].
  split; [reflexivity | discriminate].
Qed.

(** C7: host bits below the prefix length never make construction fail;
    they are discarded by masking.  The network built from the address text
    and the prefix [p] is an IPv4 network of prefix length [p]; its mask is
    the mask of [p], with the top [p] of 32 bits set, [2^32 - 2^(32-p)]; its
    network address is the address with exactly the low [32 - p] bits
    cleared and the others kept, so it shares no bit with the complement of
    the mask of [p], and the broadcast address is the network address with
    all those bits set.  Any address that differs only in the host bits
    gives the same network, and the dict reports these three values. *)
Theorem host_bits_discarded (ip : string) (a : Address) (p : Z) :
  IPv4Address ip = Some a -> 0 <= p <= 32 ->
  exists net d,
    ip_network (slash ip (Some p)) = Return net
    /\ validate_input ip (Some p) None = Return tt
    /\ calculate_subnet_details ip (Some p) = Return d
    /\ cls net = IPv4
    /\ prefixlen net = p
    /\ (forall ip' a',
          IPv4Address ip' = Some a' ->
          _ip a' / 2 ^ (32 - p) = _ip a / 2 ^ (32 - p) ->
          ip_network (slash ip' (Some p)) = Return net)
    /\ let N := _ip (network_address net) in
       let M := _ip (netmask net) in
       let H := _ip (hostmask net) in
       let B := _ip (broadcast_address net) in
       M = _ip_int_from_prefix IPv4 p
       /\ M = 2 ^ 32 - 2 ^ (32 - p)
       /\ (forall i, 0 <= i -> Z.testbit M i = (32 - p <=? i) && (i <? 32))
       /\ N = Z.land (_ip a) M
       /\ N = _ip a - _ip a mod 2 ^ (32 - p)
       /\ (forall i, 0 <= i < 32 - p -> Z.testbit N i = false)
       /\ (forall i, 32 - p <= i -> Z.testbit N i = Z.testbit (_ip a) i)
       /\ H = Z.land (Z.lnot M) (2 ^ 32 - 1)
       /\ H = 2 ^ (32 - p) - 1
       /\ Z.land N H = 0
       /\ Z.land N (Z.lnot M) = 0
       /\ B = Z.lor N H
       /\ B = N + 2 ^ (32 - p) - 1
       /\ get "Subnet Mask" d = Some (str_address (v4addr M))
       /\ get "Network Address" d = Some (str_address (v4addr N))
       /\ get "Broadcast Address" d = Some (str_address (v4addr B)).
Proof.
  intros Ha Hp.
  pose proof (IPv4Address_inv ip a Ha) as (_ & Hr & _).
  exists (v4net (block_start (_ip a) p) p). eexists.
  split; [exact (ip_network_v4 ip a p Ha Hp) |].
  split; [exact (validate_input_v4 ip a p Ha Hp) |].
  split; [exact (calculate_subnet_details_v4 ip a p Ha Hp) |].
  split; [reflexivity |].
  split; [reflexivity |].
  split.
  { intros ip' a' Ha' Hq. rewrite (ip_network_v4 ip' a' p Ha' Hp).
    unfold block_start. rewrite Hq. reflexivity. }
  cbv zeta. rewrite hostmask_v4net, netmask_v4net by exact Hp.
  cbn [network_address v4net _ip v4addr].
  pow2_pos (32 - p) Hk.
  assert (Hk32 : 2 ^ (32 - p) <= 2 ^ 32) by (apply Z.pow_le_mono_r; lia).
  assert (Hland : block_start (_ip a) p
                  = Z.land (_ip a) (_ip_int_from_prefix IPv4 p)).
  { unfold block_start. symmetry. apply land_netmask; assumption. }
  split; [symmetry; apply netmask_value; exact Hp |].
  split; [reflexivity |].
  split.
  { intros i Hi. rewrite <- netmask_value by exact Hp.
    apply netmask_testbit; assumption. }
  split; [rewrite <- netmask_value by exact Hp; exact Hland |].
  split.
  { unfold block_start.
    pose proof (Z.div_mod (_ip a) (2 ^ (32 - p)) ltac:(lia)). lia. }
  split.
  { intros i Hi. rewrite Hland, Z.land_spec, netmask_testbit by lia.
    destruct (Z.leb_spec (32 - p) i); [lia |]. apply andb_false_r. }
  split.
  { intros i Hi. rewrite Hland, Z.land_spec, netmask_testbit by lia.
    destruct (Z.leb_spec (32 - p) i); [| lia].
    destruct (Z.ltb_spec i 32); cbn [andb]; [apply andb_true_r |].
    rewrite testbit_below by lia. reflexivity. }
  split.
  { change (2 ^ 32 - 1) with (Z.ones 32). rewrite Z.land_ones by lia.
    replace (Z.lnot (2 ^ 32 - 2 ^ (32 - p)))
      with (2 ^ (32 - p) - 1 + (- 1) * 2 ^ 32)
      by (unfold Z.lnot; lia).
    rewrite Z.mod_add by lia. rewrite Z.mod_small; lia. }
  split; [reflexivity |].
  split; [unfold block_start; apply land_block_zero; lia |].
  split.
  { rewrite <- netmask_value by exact Hp. rewrite Hland.
    apply Z.bits_inj'. intros n Hn.
    rewrite !Z.land_spec, Z.lnot_spec, Z.bits_0 by exact Hn.
    destruct (Z.testbit (_ip_int_from_prefix IPv4 p) n),
      (Z.testbit (_ip a) n); reflexivity. }
  split.
  { unfold broadcast_address. cbn [_ip network_address v4net v4addr].
    rewrite hostmask_v4net by exact Hp. reflexivity. }
  split.
  { unfold broadcast_address. cbn [_ip network_address v4net v4addr].
    rewrite hostmask_v4net by exact Hp. unfold block_start.
    rewrite lor_block by lia. lia. }
  split.
  { cbn [get]. unfold netmask. cbn [cls v4net _prefixlen].
    rewrite netmask_value by exact Hp. reflexivity. }
  split; reflexivity.
Qed.

(** The theorem at 192.168.1.77/24, an address with host bits set: the
    mask is 255.255.255.0 and the network address 192.168.1.0. *)
Lemma host_bits_discarded_witness :
  IPv4Address "192.168.1.77" = Some (v4addr 3232235853) /\ 0 <= 24 <= 32
  /\ exists net d,
       ip_network (slash "192.168.1.77" (Some 24)) = Return net
       /\ calculate_subnet_details "192.168.1.77" (Some 24) = Return d
       /\ prefixlen net = 24
       /\ _ip (netmask net) = 4294967040
       /\ _ip (network_address net) = 3232235776
       /\ Z.land (_ip (network_address net)) (_ip (hostmask net)) = 0.
Proof.
  assert (Ha : IPv4Address "192.168.1.77" = Some (v4addr 3232235853))
    by reflexivity.
  assert (Hp : 0 <= 24 <= 32) by lia.
  split; [exact Ha |]. split; [exact Hp |].
  destruct (host_bits_discarded _ _ _ Ha Hp)
    as (net & d & Hnet & _ & Hd & _ & Hlen & _
        & _ & HM & _ & _ & HN & _ & _ & _ & _ & H0 & _).
  exists net, d. split; [exact Hnet |]. split; [exact Hd |].
  split; [exact Hlen |]. split; [exact HM |].
  split; [exact HN | exact H0].
Defined.

(** ** The prefix search of [calculate_multiple_subnets] *)

Section Search.

Lemma while_loop_step (c n s : Z) :
  while_loop c n s = if 2 ^ (s - c) <? n then while_loop c n (s + 1) else s.
Proof.
  rewrite while_loop_equation_1.
  destruct (Logic.inspect (number_lt (pow2 (s - c)) n)) as [b e].
  destruct b.
  - rewrite while_loop_clause_1_equation_1.
    rewrite number_lt_pow2 in e. rewrite e. reflexivity.
  - rewrite while_loop_clause_1_equation_2.
    rewrite number_lt_pow2 in e. rewrite e. reflexivity.
Qed.

Lemma while_fuel_step (f : nat) (c n s : Z) :
  while_fuel f c n s
  = if 2 ^ (s - c) <? n
    then match f with
         | O => None
         | S f' => while_fuel f' c n (s + 1)
         end
    else Some s.
Proof. destruct f; cbn [while_fuel]; rewrite number_lt_pow2; reflexivity. Qed.

(** From [new_cidr = s], if the count is reached within [k] more
    doublings, the loop runs its body some [j <= k] times, leaves
    [new_cidr = s + j], and [j] is the first number of doublings that
    reaches the count. *)
Lemma while_loop_steps (c n : Z) (k : nat) (s : Z) :
  c <= s -> n <= 2 ^ (s + Z.of_nat k - c) ->
  exists j : nat,
    (j <= k)%nat
    /\ while_loop c n s = s + Z.of_nat j
    /\ while_fuel j c n s = Some (s + Z.of_nat j)
    /\ (forall f, (f < j)%nat -> while_fuel f c n s = None)
    /\ n <= 2 ^ (s + Z.of_nat j - c)
    /\ (forall q, s <= q < s + Z.of_nat j -> 2 ^ (q - c) < n).
Proof.
  revert s. induction k as [| k IH]; intros s Hs Hn.
  - exists 0%nat. rewrite while_loop_step, while_fuel_step.
    replace (s + Z.of_nat 0 - c) with (s - c) in * by lia.
    destruct (Z.ltb_spec (2 ^ (s - c)) n); [lia |].
    repeat split; try lia. f_equal; lia.
  - rewrite while_loop_step.
    destruct (Z.ltb_spec (2 ^ (s - c)) n) as [Hlt | Hge].
    + destruct (IH (s + 1)) as (j & Hj & Hloop & Hfuel & Hmin & Hreach & Hbelow);
        [lia | replace (s + 1 + Z.of_nat k - c) with (s + Z.of_nat (S k) - c)
                 by lia; exact Hn |].
      exists (S j).
      replace (s + Z.of_nat (S j)) with (s + 1 + Z.of_nat j) by lia.
      split; [lia |]. split; [exact Hloop |].
      split; [| split; [| split]].
      * rewrite while_fuel_step.
        destruct (Z.ltb_spec (2 ^ (s - c)) n); [exact Hfuel | lia].
      * intros f Hf. rewrite while_fuel_step.
        destruct (Z.ltb_spec (2 ^ (s - c)) n); [| lia].
        destruct f as [| f]; [reflexivity | apply Hmin; lia].
      * exact Hreach.
      * intros q Hq. destruct (Z.eq_dec q s) as [-> | Hne];
          [exact Hlt | apply Hbelow; lia].
    + exists 0%nat. rewrite while_fuel_step.
      replace (s + Z.of_nat 0 - c) with (s - c) by lia.
      destruct (Z.ltb_spec (2 ^ (s - c)) n); [lia |].
      repeat split; try lia. f_equal; lia.
Qed.

(** Whenever the bounded run ends, it ends where the loop does. *)
Lemma while_fuel_loop (f : nat) (c n s q : Z) :
  while_fuel f c n s = Some q -> while_loop c n s = q.
Proof.
  revert s. induction f as [| f IH]; intros s;
    rewrite while_fuel_step, while_loop_step;
    destruct (2 ^ (s - c) <? n); try discriminate;
    try (intros [= <-]; reflexivity).
  apply IH.
Qed.

End Search.

(** C9: for a prefix [p] in [0, 32] and a count [n] with
    [1 <= n <= 2 ^ (32 - p)], the prefix search ends after a number of
    iterations that is at most [32 - p], with a new prefix of at most 32. *)
Theorem prefix_search_terminates (p n : Z) :
  0 <= p <= 32 -> 1 <= n <= 2 ^ (32 - p) ->
  exists iterations : nat,
    Z.of_nat iterations <= 32 - p
    /\ while_fuel iterations p n p = Some (p + Z.of_nat iterations)
    /\ (forall fuel, (fuel < iterations)%nat -> while_fuel fuel p n p = None)
    /\ while_loop p n p = p + Z.of_nat iterations
    /\ while_loop p n p <= 32.
Proof.
  intros Hp Hn.
  destruct (while_loop_steps p n (Z.to_nat (32 - p)) p)
    as (j & Hj & Hloop & Hfuel & Hmin & _); [lia | |].
  - replace (p + Z.of_nat (Z.to_nat (32 - p)) - p) with (32 - p) by lia. lia.
  - exists j. repeat split; [lia | exact Hfuel | exact Hmin | exact Hloop | lia].
Qed.

(** The theorem at prefix 24 and four subnets. *)
Lemma prefix_search_terminates_witness :
  0 <= 24 <= 32 /\ 1 <= 4 <= 2 ^ (32 - 24)
  /\ exists iterations : nat,
       Z.of_nat iterations <= 32 - 24
       /\ while_fuel iterations 24 4 24 = Some (24 + Z.of_nat iterations).
Proof.
  assert (Hp : 0 <= 24 <= 32) by lia.
  assert (Hn : 1 <= 4 <= 2 ^ (32 - 24)) by (cbn; lia).
  split; [exact Hp |]. split; [exact Hn |].
  destruct (prefix_search_terminates 24 4 Hp Hn) as (k & Hk & Hf & _).
  exists k. split; [exact Hk | exact Hf].
Defined.

(** ** Splitting an IPv4 network: [subnets] *)

Section Split.

Lemma for_each_map {A B} (f : A -> outcome B) (g : A -> B) (l : list A) :
  (forall x, In x l -> f x = Return (g x)) -> for_each f l = Return (map g l).
Proof.
  induction l as [| x l IH]; intros H; cbn [for_each map]; [reflexivity |].
  rewrite (H x (or_introl eq_refl)). cbn [bind].
  rewrite IH by (intros y Hy; apply H; right; exact Hy). reflexivity.
Qed.

Lemma for_each_Forall2 {A B} (f : A -> outcome B) (l : list A) :
  (forall x, In x l -> exists y, f x = Return y) ->
  exists ys, for_each f l = Return ys
             /\ Forall2 (fun x y => f x = Return y) l ys.
Proof.
  induction l as [| x l IH]; intros H; cbn [for_each].
  - exists []. split; [reflexivity | constructor].
  - destruct (H x (or_introl eq_refl)) as [y Hy].
    destruct IH as (ys & Hys & Hall); [intros z Hz; apply H; right; exact Hz |].
    exists (y :: ys). rewrite Hy. cbn [bind]. rewrite Hys. cbn [bind].
    split; [reflexivity | constructor; assumption].
Qed.

Lemma pow2_split (k j : Z) : 0 <= j <= k -> 2 ^ k = 2 ^ (k - j) * 2 ^ j.
Proof. intros H. rewrite <- Z.pow_add_r by lia. f_equal. lia. Qed.

Lemma range_step_blocks (n k j : Z) :
  0 <= j <= k ->
  range_step n (n + 2 ^ k) (2 ^ j)
  = map (fun i => n + Z.of_nat i * 2 ^ j) (seq 0 (Z.to_nat (2 ^ (k - j)))).
Proof.
  intros H. unfold range_step. do 3 f_equal.
  pow2_pos j Hj.
  replace (n + 2 ^ k - n + 2 ^ j - 1) with (2 ^ (k - j) * 2 ^ j + (2 ^ j - 1))
    by (rewrite (pow2_split k j H); lia).
  rewrite Z.div_add_l by lia. rewrite (Z.div_small (2 ^ j - 1)) by lia. lia.
Qed.

Lemma Network_of_pair_v4 (x q : Z) :
  aligned x q -> 0 <= q <= 32 -> Network_of_pair IPv4 x q = Return (v4net x q).
Proof.
  intros ([m Hm] & H0 & Hhi) Hq. unfold Network_of_pair.
  pow2_pos (32 - q) Hk.
  destruct (Z.ltb_spec x 0); [lia |].
  change (_ALL_ONES IPv4) with (2 ^ 32 - 1).
  destruct (Z.ltb_spec (2 ^ 32 - 1) x); [lia |].
  change (_max_prefixlen IPv4) with 32.
  destruct (Z.leb_spec 0 q); [| lia]. destruct (Z.leb_spec q 32); [| lia].
  cbn [andb negb]. fold (v4net x q).
  unfold netmask. cbn [cls v4net _prefixlen _ip v4addr].
  rewrite land_netmask by lia.
  replace (x / 2 ^ (32 - q)) with m
    by (rewrite Hm, Z.mul_comm, Z.div_mul by lia; reflexivity).
  rewrite <- Hm, Z.eqb_refl. reflexivity.
Qed.

Lemma child_aligned (n p q : Z) (i : nat) :
  aligned n p -> 0 <= p <= q -> q <= 32 -> Z.of_nat i < 2 ^ (q - p) ->
  aligned (n + Z.of_nat i * 2 ^ (32 - q)) q.
Proof.
  intros ([m Hm] & H0 & Hhi) Hp Hq Hi.
  pow2_pos (32 - q) Hb.
  assert (Hs : 2 ^ (32 - p) = 2 ^ (q - p) * 2 ^ (32 - q)).
  { rewrite <- Z.pow_add_r by lia. f_equal. lia. }
  split; [| split].
  - exists (2 ^ (q - p) * m + Z.of_nat i). rewrite Hm, Hs. lia.
  - nia.
  - nia.
Qed.

Lemma subnets_v4net (n p q : Z) :
  aligned n p -> 0 <= p <= q -> q <= 32 ->
  ipaddress.subnets (v4net n p) q = Return (children n p q).
Proof.
  intros Hal Hp Hq. unfold ipaddress.subnets, children.
  cbn [_prefixlen cls v4net v4addr]. change (_max_prefixlen IPv4) with 32.
  destruct (Z.eqb_spec p 32) as [-> | Hne].
  - replace q with 32 by lia.
    change (Z.to_nat (2 ^ (32 - 32))) with 1%nat. cbn [seq map].
    replace (n + Z.of_nat 0 * 2 ^ (32 - 32)) with n by (cbn; lia).
    reflexivity.
  - destruct (Z.ltb_spec q p); [lia |].
    destruct (Z.ltb_spec (q - p) 0); [lia |].
    destruct (Z.ltb_spec 32 (p + (q - p))); [lia |].
    fold (v4net n p). rewrite broadcast_v4net, hostmask_v4net by (assumption || lia).
    cbn [network_address v4net _ip v4addr].
    replace (2 ^ (32 - p) - 1 + 1) with (2 ^ (32 - p)) by lia.
    rewrite Z.shiftr_div_pow2 by lia.
    replace (2 ^ (32 - p) / 2 ^ (q - p)) with (2 ^ (32 - q)).
    2:{ rewrite <- Z.pow_sub_r by lia. f_equal. lia. }
    replace (n + 2 ^ (32 - p) - 1 + 1) with (n + 2 ^ (32 - p)) by lia.
    rewrite range_step_blocks by lia.
    replace (32 - p - (32 - q)) with (q - p) by lia.
    replace (p + (q - p)) with q by lia.
    rewrite (for_each_map _ (fun x => v4net x q)).
    + rewrite map_map. reflexivity.
    + intros x Hx. apply in_map_iff in Hx as (i & <- & Hi).
      apply in_seq in Hi. apply Network_of_pair_v4; [| lia].
      apply (child_aligned n p q i); try assumption; lia.
Qed.

Lemma children_length (n p q : Z) :
  0 <= p <= q -> Z.of_nat (List.length (children n p q)) = 2 ^ (q - p).
Proof.
  intros H. unfold children. rewrite length_map, length_seq.
  assert (0 < 2 ^ (q - p)) by (apply Z.pow_pos_nonneg; lia). lia.
Qed.

Lemma children_nth (n p q i : Z) :
  0 <= i < 2 ^ (q - p) ->
  nth_error (children n p q) (Z.to_nat i) = Some (v4net (n + i * 2 ^ (32 - q)) q).
Proof.
  intros H. unfold children. rewrite nth_error_map, nth_error_seq.
  destruct (Nat.ltb_spec (Z.to_nat i) (Z.to_nat (2 ^ (q - p)))); [| lia].
  cbn [option_map]. do 3 f_equal. lia.
Qed.

End Split.

(** ** Multi-subnet mode: [calculate_multiple_subnets] *)

Lemma subnet_details_v4net (x q : Z) :
  aligned x q -> 0 <= q <= 32 ->
  subnet_details (v4net x q) = Return (details (v4net x q)).
Proof.
  intros Hal Hq. apply subnet_details_hosts, hosts_v4net_nonempty; assumption.
Qed.

Lemma calculate_multiple_subnets_v4 (ip : string) (a : Address) (p n : Z) :
  IPv4Address ip = Some a -> 0 <= p <= while_loop p n p ->
  while_loop p n p <= 32 ->
  calculate_multiple_subnets ip (Some p) n
  = Return (map details
              (children (block_start (_ip a) p) p (while_loop p n p))).
Proof.
  intros Ha Hp Hq. unfold calculate_multiple_subnets.
  pose proof (IPv4Address_inv ip a Ha) as (_ & Hr & _).
  pose proof (block_start_aligned (_ip a) p Hr ltac:(lia)) as Hal.
  rewrite (ip_network_v4 ip a p Ha) by lia. cbn [bind].
  rewrite subnets_v4net by (assumption || lia). cbn [bind].
  apply for_each_map. intros c Hc. unfold children in Hc.
  apply in_map_iff in Hc as (i & <- & Hi). apply in_seq in Hi.
  apply subnet_details_v4net; [| lia].
  apply (child_aligned _ p _ i); try assumption; lia.
Qed.

(** C3: splitting a valid network of prefix [p] at a new prefix [q],
    [p <= q <= 32], yields exactly [2 ^ (q - p)] children of prefix [q];
    the [i]-th starts at the parent's network address plus [i] blocks of
    [2 ^ (32 - q)] addresses and ends one address before the next, the
    last one at the parent's broadcast address; so every address of the
    parent's range lies in exactly one child's range.  These children are
    what [calculate_multiple_subnets] describes, in this order, whenever
    its prefix search ends at [q]. *)
Theorem split_tiles_parent (ip : string) (a : Address) (p q : Z) :
  IPv4Address ip = Some a -> 0 <= p -> p <= q -> q <= 32 ->
  let parent := v4net (block_start (_ip a) p) p in
  let N := _ip (network_address parent) in
  let B := _ip (broadcast_address parent) in
  let blockSize := 2 ^ (32 - q) in
  ip_network (slash ip (Some p)) = Return parent
  /\ exists subnet_list,
       ipaddress.subnets parent q = Return subnet_list
       /\ Z.of_nat (List.length subnet_list) = 2 ^ (q - p)
       /\ (forall i, 0 <= i < 2 ^ (q - p) ->
           exists c, nth_error subnet_list (Z.to_nat i) = Some c
                     /\ prefixlen c = q
                     /\ _ip (network_address c) = N + i * blockSize
                     /\ _ip (broadcast_address c) = N + (i + 1) * blockSize - 1)
       /\ N + 2 ^ (q - p) * blockSize - 1 = B
       /\ (forall x, N <= x <= B ->
           exists i, 0 <= i < 2 ^ (q - p)
                     /\ N + i * blockSize <= x <= N + (i + 1) * blockSize - 1
                     /\ forall j, 0 <= j < 2 ^ (q - p) ->
                                  N + j * blockSize <= x
                                    <= N + (j + 1) * blockSize - 1 ->
                                  j = i)
       /\ (forall n, while_loop p n p = q ->
           calculate_multiple_subnets ip (Some p) n
           = Return (map details subnet_list)).
Proof.
  intros Ha Hp0 Hpq Hq parent N B blockSize.
  pose proof (IPv4Address_inv ip a Ha) as (_ & Hr & _).
  pose proof (block_start_aligned (_ip a) p Hr ltac:(lia)) as Hal.
  assert (HB : B = N + 2 ^ (32 - p) - 1)
    by (apply broadcast_v4net; [assumption | lia]).
  assert (Hbs : 0 < blockSize) by (apply Z.pow_pos_nonneg; lia).
  pow2_pos (q - p) Hcnt.
  assert (Hs : 2 ^ (32 - p) = 2 ^ (q - p) * blockSize).
  { unfold blockSize. rewrite <- Z.pow_add_r by lia. f_equal. lia. }
  split; [apply (ip_network_v4 ip a p Ha); lia |].
  exists (children N p q).
  split; [apply subnets_v4net; assumption || lia |].
  split; [apply children_length; lia |].
  split; [| split; [| split]].
  - intros i Hi. eexists. split; [apply children_nth; exact Hi |].
    split; [reflexivity |]. split; [reflexivity |].
    rewrite broadcast_v4net; [fold blockSize; lia | | lia].
    replace i with (Z.of_nat (Z.to_nat i)) by lia.
    apply (child_aligned N p q); try assumption; lia.
  - lia.
  - intros x Hx. exists ((x - N) / blockSize).
    pose proof (Z.div_mod (x - N) blockSize ltac:(lia)) as Hdm.
    pose proof (Z.mod_pos_bound (x - N) blockSize Hbs) as Hmod.
    assert (0 <= (x - N) / blockSize) by (apply Z.div_pos; lia).
    assert ((x - N) / blockSize < 2 ^ (q - p))
      by (apply Z.div_lt_upper_bound; lia).
    split; [lia |]. split; [lia |].
    intros j Hj Hjx. apply (Z.div_unique (x - N) blockSize j (x - N - j * blockSize));
      lia.
  - intros n Hn. rewrite <- Hn.
    apply calculate_multiple_subnets_v4; [exact Ha | lia | lia].
Qed.

(** The theorem at 192.168.1.0/24 split at /26. *)
Lemma split_tiles_parent_witness :
  IPv4Address "192.168.1.0" = Some (v4addr 3232235776)
  /\ 0 <= 24 /\ 24 <= 26 /\ 26 <= 32
  /\ exists subnet_list,
       ipaddress.subnets (v4net 3232235776 24) 26 = Return subnet_list
       /\ Z.of_nat (List.length subnet_list) = 2 ^ (26 - 24).
Proof.
  assert (Ha : IPv4Address "192.168.1.0" = Some (v4addr 3232235776))
    by reflexivity.
  assert (H0 : 0 <= 24) by lia.
  assert (H1 : 24 <= 26) by lia.
  assert (H2 : 26 <= 32) by lia.
  split; [exact Ha |]. split; [exact H0 |]. split; [exact H1 |].
  split; [exact H2 |].
  destruct (split_tiles_parent _ _ 24 26 Ha H0 H1 H2)
    as (_ & l & Hl & Hlen & _).
  exists l. split; [exact Hl | exact Hlen].
Defined.

Lemma children_self (n p : Z) : children n p p = [v4net n p].
Proof.
  unfold children. replace (p - p) with 0 by lia.
  change (Z.to_nat (2 ^ 0)) with 1%nat. cbn [seq map].
  replace (n + Z.of_nat 0 * 2 ^ (32 - p)) with n by lia. reflexivity.
Qed.

(** C2: for a prefix [p] in [0, 32] and a count [n] with
    [1 <= n <= 2 ^ (32 - p)], the prefix search returns the least [q >= p]
    with [2 ^ (q - p) >= n], which is unique; for [n = 1] it returns [p]
    and the original network is the only one described. *)
Theorem minimal_prefix_search (p n : Z) :
  0 <= p <= 32 -> 1 <= n <= 2 ^ (32 - p) ->
  let q := while_loop p n p in
  p <= q <= 32
  /\ n <= 2 ^ (q - p)
  /\ (forall q', p <= q' -> n <= 2 ^ (q' - p) -> q <= q')
  /\ (forall q', p <= q' -> n <= 2 ^ (q' - p) ->
                 (forall r, p <= r -> n <= 2 ^ (r - p) -> q' <= r) -> q' = q)
  /\ (n = 1 ->
      q = p
      /\ forall ip a, IPv4Address ip = Some a ->
           let parent := v4net (block_start (_ip a) p) p in
           ip_network (slash ip (Some p)) = Return parent
           /\ calculate_multiple_subnets ip (Some p) n
              = Return [details parent]).
Proof.
  intros Hp Hn q.
  destruct (while_loop_steps p n (Z.to_nat (32 - p)) p)
    as (j & Hj & Hloop & _ & _ & Hreach & Hbelow); [lia | |].
  { replace (p + Z.of_nat (Z.to_nat (32 - p)) - p) with (32 - p) by lia. lia. }
  fold q in Hloop. rewrite <- Hloop in Hreach, Hbelow.
  assert (Hleast : forall q', p <= q' -> n <= 2 ^ (q' - p) -> q <= q').
  { intros q' Hq' Hle. destruct (Z.le_gt_cases q q') as [|Hlt]; [assumption |].
    specialize (Hbelow q' ltac:(lia)). lia. }
  split; [lia |]. split; [exact Hreach |]. split; [exact Hleast |].
  split.
  - intros q' Hq' Hle Hmin. apply Z.le_antisymm.
    + apply Hmin; [lia | exact Hreach].
    + apply Hleast; assumption.
  - intros ->.
    assert (Hq : q = p).
    { apply Z.le_antisymm; [| lia].
      apply Hleast; [lia |]. rewrite Z.sub_diag. cbn. lia. }
    split; [exact Hq |]. intros ip a Ha parent.
    split; [apply (ip_network_v4 ip a p Ha Hp) |].
    rewrite (calculate_multiple_subnets_v4 ip a p 1 Ha); fold q;
      [| lia | lia].
    rewrite Hq, children_self. reflexivity.
Qed.

(** The theorem at prefix 24 and four subnets: the search returns 26. *)
Lemma minimal_prefix_search_witness :
  0 <= 24 <= 32 /\ 1 <= 4 <= 2 ^ (32 - 24)
  /\ 24 <= while_loop 24 4 24 <= 32 /\ 4 <= 2 ^ (while_loop 24 4 24 - 24).
Proof.
  assert (Hp : 0 <= 24 <= 32) by lia.
  assert (Hn : 1 <= 4 <= 2 ^ (32 - 24)) by (cbn; lia).
  split; [exact Hp |]. split; [exact Hn |].
  destruct (minimal_prefix_search 24 4 Hp Hn) as (Hq & Hreach & _).
  split; [exact Hq | exact Hreach].
Defined.

(** C8: for 192.168.1.0 with prefix 24 and four subnets the search picks
    prefix 26, and the four networks 192.168.1.0/26, 192.168.1.64/26,
    192.168.1.128/26 and 192.168.1.192/26 are described in this order,
    each with 62 usable hosts. *)
Theorem four_subnets_of_slash24 :
  while_loop 24 4 24 = 26
  /\ (exists parent subnet_list,
        ip_network (slash "192.168.1.0" (Some 24)) = Return parent
        /\ ipaddress.subnets parent 26 = Return subnet_list
        /\ map str_network subnet_list
           = ["192.168.1.0/26"; "192.168.1.64/26";
              "192.168.1.128/26"; "192.168.1.192/26"]%string
        /\ map (fun c => List.length (hosts c)) subnet_list
           = [62; 62; 62; 62]%nat)
  /\ calculate_multiple_subnets "192.168.1.0" (Some 24) 4
     = Return
         [[("Subnet", "192.168.1.0/26"); ("Subnet Mask", "255.255.255.192");
           ("Network Address", "192.168.1.0");
           ("Broadcast Address", "192.168.1.63");
           ("Usable IP Range", "192.168.1.1 - 192.168.1.62")];
          [("Subnet", "192.168.1.64/26"); ("Subnet Mask", "255.255.255.192");
           ("Network Address", "192.168.1.64");
           ("Broadcast Address", "192.168.1.127");
           ("Usable IP Range", "192.168.1.65 - 192.168.1.126")];
          [("Subnet", "192.168.1.128/26"); ("Subnet Mask", "255.255.255.192");
           ("Network Address", "192.168.1.128");
           ("Broadcast Address", "192.168.1.191");
           ("Usable IP Range", "192.168.1.129 - 192.168.1.190")];
          [("Subnet", "192.168.1.192/26"); ("Subnet Mask", "255.255.255.192");
           ("Network Address", "192.168.1.192");
           ("Broadcast Address", "192.168.1.255");
           ("Usable IP Range", "192.168.1.193 - 192.168.1.254")]]%string.
Proof.
  split; [vm_compute; reflexivity |]. split.
  - do 2 eexists. split; [vm_compute; reflexivity |].
    split; [vm_compute; reflexivity |]. split; vm_compute; reflexivity.
  - vm_compute. reflexivity.
Qed.

(** ** Validation: [validate_input] *)

Section Validation.

(** With a valid address and prefix, validation depends on the count only. *)
Lemma validate_input_count (ip : string) (a : Address) (p n : Z) :
  IPv4Address ip = Some a -> 0 <= p <= 32 ->
  validate_input ip (Some p) (Some n)
  = if 2 ^ (32 - p) <? n
    then Exit 1 [Text "Input validation error: "
                   :: too_many_subnets n (PyInt (2 ^ (32 - p))) p]
    else Return tt.
Proof.
  intros Ha Hp. unfold validate_input, validate_input_try.
  rewrite (ip_network_v4 ip a p Ha Hp). cbn [bind truthy].
  pow2_pos (32 - p) Hk.
  destruct (Z.eqb_spec n 0) as [-> | Hn]; cbn [negb].
  - destruct (Z.ltb_spec (2 ^ (32 - p)) 0); [lia | reflexivity].
  - unfold int_gt, pow2. destruct (Z.leb_spec 0 (32 - p)); [| lia].
    cbn [number_lt]. destruct (2 ^ (32 - p) <? n); reflexivity.
Qed.

(** [validate_input] returns [None] or ends the process with status 1
    after one printed line; it never raises and never returns an error. *)
Lemma validate_input_outcomes (ip : string) (cidr subnets : option Z) :
  validate_input ip cidr subnets = Return tt
  \/ exists e, validate_input ip cidr subnets
               = Exit 1 [Text "Input validation error: " :: e].
Proof.
  unfold validate_input, validate_input_try.
  set (net := match cidr with
              | Some _ => ip_network (slash ip cidr)
              | None => ip_network ip
              end).
  assert (Hnet : (exists n, net = Return n) \/ exists e, net = Raise (ValueError e)).
  { unfold net, ip_network.
    destruct cidr;
      match goal with
      | |- context [Network_of_string IPv4 ?s] =>
          destruct (Network_of_string IPv4 s);
          [left; eexists; reflexivity |];
          destruct (Network_of_string IPv6 s);
          [left; eexists; reflexivity | right; eexists; reflexivity]
      end. }
  destruct Hnet as [[n ->] | [e ->]]; cbn [bind]; [| right; eexists; reflexivity].
  destruct subnets as [k |]; [| left; reflexivity].
  destruct (truthy (Some k)); [| left; reflexivity].
  destruct (int_gt k _); [right; eexists; reflexivity | left; reflexivity].
Qed.

Lemma IPv6Address_without_colon (s : string) :
  contains ":" s = false -> IPv6Address s = None.
Proof.
  intros H. unfold IPv6Address. destruct (contains "/" s); [reflexivity |].
  unfold _split_scope_id.
  pose proof (contains_partition ":" "%" s H) as Hp.
  destruct (partition "%" s) as [addr [scope |]]; cbn [fst] in Hp.
  - destruct (_ || _); [reflexivity |].
    unfold v6_ip_int_from_string. rewrite (split_without _ _ Hp).
    destruct addr; reflexivity.
  - unfold v6_ip_int_from_string. rewrite (split_without _ _ Hp).
    destruct addr; reflexivity.
Qed.

(** A prefix length outside [0, 32] after a valid IPv4 address text is
    accepted by neither address family. *)
Lemma ip_network_bad_prefix (ip : string) (a : Address) (p : Z) :
  IPv4Address ip = Some a -> p < 0 \/ 32 < p ->
  ip_network (slash ip (Some p))
  = Raise (ValueError (not_a_network (slash ip (Some p)))).
Proof.
  intros Ha Hp. pose proof (IPv4Address_inv ip a Ha) as (_ & _ & Hs & Hchars).
  assert (Hsplit : split "/" (slash ip (Some p)) = [ip; str p]).
  { apply (split_slash ip (Some p)); [exact Hs | apply str_chars; reflexivity]. }
  assert (Hdot : v4_ip_int_from_string (str p) = None).
  { unfold v4_ip_int_from_string.
    rewrite split_without by (apply str_chars; reflexivity).
    destruct (str p); reflexivity. }
  unfold ip_network, Network_of_string, _split_addr_prefix,
    _split_optional_netmask.
  rewrite Hsplit.
  cbn [List.length Z.of_nat Z.ltb Z.compare Pos.of_succ_nat Pos.succ Pos.compare
       Pos.compare_cont Address_of_string].
  rewrite Ha, IPv6Address_without_colon by (apply Hchars; reflexivity).
  unfold _make_netmask, _prefix_from_prefix_string, _prefix_from_ip_string.
  rewrite int_of_digits_str, Hdot.
  change (_max_prefixlen IPv4) with 32.
  destruct (Z.leb_spec 0 p) as [H0 | H0]; [| reflexivity].
  cbv beta iota.
  assert (E0 : (0 <=? p) = true) by (apply Z.leb_le; exact H0).
  assert (E32 : (p <=? 32) = false) by (apply Z.leb_gt; lia).
  rewrite E0, E32. reflexivity.
Qed.


End Validation.

Lemma main_exit (a : args.t) (out : list message) :
  validate_input (args.ip_address a) (args.cidr a) (args.subnets a)
  = Exit 1 out ->
  main a = Exit 1 out.
Proof. intros H. unfold main. rewrite H. reflexivity. Qed.

(** C4: for a valid IPv4 address text, a prefix [p] in [0, 32] and a count
    [n], validation fails with the capacity error (printed, then
    [exit(1)]) exactly when [n > 2 ^ (32 - p)], and returns otherwise;
    prefix 24 with 300 subnets is the witness below. *)
Theorem capacity_check (ip : string) (a : Address) (p n : Z) :
  IPv4Address ip = Some a -> 0 <= p <= 32 ->
  let capacity_error :=
    Exit 1 [Text "Input validation error: "
              :: too_many_subnets n (PyInt (2 ^ (32 - p))) p] in
  (validate_input ip (Some p) (Some n) = capacity_error <-> 2 ^ (32 - p) < n)
  /\ (validate_input ip (Some p) (Some n) = Return tt <-> n <= 2 ^ (32 - p))
  /\ (2 ^ (32 - p) < n ->
      main (args.make ip (Some p) (Some n))
      = Exit 1 [Text "Input validation error: "
                  :: too_many_subnets n (PyInt (2 ^ (32 - p))) p])
  /\ validate_input ip (Some p) None = Return tt.
Proof.
  intros Ha Hp capacity_error. subst capacity_error.
  pose proof (validate_input_count ip a p n Ha Hp) as H.
  split; [| split; [| split]].
  - rewrite H. destruct (Z.ltb_spec (2 ^ (32 - p)) n); split;
      intros; try reflexivity; try discriminate; lia.
  - rewrite H. destruct (Z.ltb_spec (2 ^ (32 - p)) n); split;
      intros; try reflexivity; try discriminate; lia.
  - intros Hn. apply main_exit. cbn [args.ip_address args.cidr args.subnets].
    rewrite H. destruct (Z.ltb_spec (2 ^ (32 - p)) n); [reflexivity | lia].
  - exact (validate_input_v4 ip a p Ha Hp).
Qed.

(** The theorem at prefix 24 and 300 subnets: 256 < 300, so the request is
    rejected. *)
Lemma capacity_check_witness :
  IPv4Address "192.168.1.0" = Some (v4addr 3232235776) /\ 0 <= 24 <= 32
  /\ validate_input "192.168.1.0" (Some 24) (Some 300)
     = Exit 1 [Text "Input validation error: "
                 :: too_many_subnets 300 (PyInt 256) 24].
Proof.
  assert (Ha : IPv4Address "192.168.1.0" = Some (v4addr 3232235776))
    by reflexivity.
  assert (Hp : 0 <= 24 <= 32) by lia.
  split; [exact Ha |]. split; [exact Hp |].
  destruct (capacity_check _ _ 24 300 Ha Hp) as ([_ H] & _).
  apply H. reflexivity.
Defined.

(** C5 (amended): a count of zero or less is not rejected.  For a valid
    IPv4 address text and prefix, validation returns; with a count of zero
    the program reports the single network exactly as without a count;
    with a negative count the prefix search leaves the prefix unchanged and
    the program reports the original network as the only subnet. *)
Theorem nonpositive_count_proceeds (ip : string) (a : Address) (p n : Z) :
  IPv4Address ip = Some a -> 0 <= p <= 32 -> n <= 0 ->
  let parent := v4net (block_start (_ip a) p) p in
  validate_input ip (Some p) (Some n) = Return tt
  /\ (n = 0 ->
      exists d,
        calculate_subnet_details ip (Some p) = Return d
        /\ main (args.make ip (Some p) (Some n))
           = Return (display_results (inl d))
        /\ main (args.make ip (Some p) (Some n))
           = main (args.make ip (Some p) None))
  /\ (n < 0 ->
      while_loop p n p = p
      /\ calculate_multiple_subnets ip (Some p) n = Return [details parent]
      /\ main (args.make ip (Some p) (Some n))
         = Return (display_results (inr [details parent]))).
Proof.
  intros Ha Hp Hn parent.
  pow2_pos (32 - p) Hk.
  assert (Hv : validate_input ip (Some p) (Some n) = Return tt).
  { rewrite (validate_input_count ip a p n Ha Hp).
    destruct (Z.ltb_spec (2 ^ (32 - p)) n); [lia | reflexivity]. }
  split; [exact Hv |]. split.
  - intros ->. eexists.
    split; [exact (calculate_subnet_details_v4 ip a p Ha Hp) |].
    unfold main. cbn [args.ip_address args.cidr args.subnets].
    rewrite Hv, (validate_input_v4 ip a p Ha Hp). cbn [bind truthy Z.eqb negb].
    rewrite (calculate_subnet_details_v4 ip a p Ha Hp). cbn [bind].
    split; reflexivity.
  - intros Hneg.
    assert (Hloop : while_loop p n p = p).
    { rewrite while_loop_step, Z.sub_diag.
      destruct (Z.ltb_spec (2 ^ 0) n) as [H | H]; [cbn in H; lia | reflexivity]. }
    assert (Hcalc : calculate_multiple_subnets ip (Some p) n
                    = Return [details parent]).
    { rewrite (calculate_multiple_subnets_v4 ip a p n Ha);
        rewrite ?Hloop; [| lia | lia].
      rewrite children_self. reflexivity. }
    split; [exact Hloop |]. split; [exact Hcalc |].
    unfold main. cbn [args.ip_address args.cidr args.subnets].
    rewrite Hv. cbn [bind truthy].
    destruct (Z.eqb_spec n 0); [lia |]. cbn [negb].
    rewrite Hcalc. reflexivity.
Qed.

(** The theorem at 192.168.1.0/24 and a count of -1. *)
Lemma nonpositive_count_proceeds_witness :
  IPv4Address "192.168.1.0" = Some (v4addr 3232235776) /\ 0 <= 24 <= 32
  /\ -1 <= 0
  /\ validate_input "192.168.1.0" (Some 24) (Some (-1)) = Return tt.
Proof.
  assert (Ha : IPv4Address "192.168.1.0" = Some (v4addr 3232235776))
    by reflexivity.
  assert (Hp : 0 <= 24 <= 32) by lia.
  assert (Hn : -1 <= 0) by lia.
  split; [exact Ha |]. split; [exact Hp |]. split; [exact Hn |].
  destruct (nonpositive_count_proceeds _ _ 24 (-1) Ha Hp Hn) as (Hv & _).
  exact Hv.
Defined.

(** C5 as stated fails for 192.168.1.0/24 with counts -1 and 0: validation
    returns and the program prints a result. *)
Lemma nonpositive_count_not_rejected :
  validate_input "192.168.1.0" (Some 24) (Some (-1)) = Return tt
  /\ main (args.make "192.168.1.0" (Some 24) (Some (-1)))
     = Return [[Text "Subnet 1:"]; [Text "  Subnet: 192.168.1.0/24"];
               [Text "  Subnet Mask: 255.255.255.0"];
               [Text "  Network Address: 192.168.1.0"];
               [Text "  Broadcast Address: 192.168.1.255"];
               [Text "  Usable IP Range: 192.168.1.1 - 192.168.1.254"];
               [Text ""]]
  /\ validate_input "192.168.1.0" (Some 24) (Some 0) = Return tt
  /\ main (args.make "192.168.1.0" (Some 24) (Some 0))
     = Return [[Text "Subnet Mask: 255.255.255.0"];
               [Text "Network Address: 192.168.1.0"];
               [Text "Broadcast Address: 192.168.1.255"];
               [Text "Usable IP Range: 192.168.1.1 - 192.168.1.254"]].
Proof. repeat split; vm_compute; reflexivity. Qed.

(** C6 (amended): an invalid input is not reported as a returned value.
    For a valid IPv4 address text, a prefix outside [0, 32] or a count above
    [2 ^ (32 - p)] makes [validate_input] print one line, "Input validation
    error: " and the text of the [ValueError], and end the process with
    [exit(1)]; and on every input [validate_input] either returns [None] or
    ends the process so, never returning an error. *)
Theorem invalid_input_exits (ip : string) (a : Address) (p n : Z) :
  IPv4Address ip = Some a ->
  (p < 0 \/ 32 < p ->
   forall subnets,
     validate_input ip (Some p) subnets
     = Exit 1 [Text "Input validation error: "
                 :: not_a_network (slash ip (Some p))]
     /\ main (args.make ip (Some p) subnets)
        = Exit 1 [Text "Input validation error: "
                    :: not_a_network (slash ip (Some p))])
  /\ (0 <= p <= 32 -> 2 ^ (32 - p) < n ->
      validate_input ip (Some p) (Some n)
      = Exit 1 [Text "Input validation error: "
                  :: too_many_subnets n (PyInt (2 ^ (32 - p))) p]
      /\ main (args.make ip (Some p) (Some n))
         = Exit 1 [Text "Input validation error: "
                     :: too_many_subnets n (PyInt (2 ^ (32 - p))) p])
  /\ (forall ip' cidr subnets,
        validate_input ip' cidr subnets = Return tt
        \/ exists e, validate_input ip' cidr subnets
                     = Exit 1 [Text "Input validation error: " :: e]).
Proof.
  intros Ha. split; [| split].
  - intros Hp subnets.
    assert (H : validate_input ip (Some p) subnets
                = Exit 1 [Text "Input validation error: "
                            :: not_a_network (slash ip (Some p))]).
    { unfold validate_input, validate_input_try.
      rewrite (ip_network_bad_prefix ip a p Ha Hp). reflexivity. }
    split; [exact H | apply main_exit; exact H].
  - intros Hp Hn.
    assert (H : validate_input ip (Some p) (Some n)
                = Exit 1 [Text "Input validation error: "
                            :: too_many_subnets n (PyInt (2 ^ (32 - p))) p]).
    { rewrite (validate_input_count ip a p n Ha Hp).
      destruct (Z.ltb_spec (2 ^ (32 - p)) n); [reflexivity | lia]. }
    split; [exact H | apply main_exit; exact H].
  - exact validate_input_outcomes.
Qed.

(** The theorem at 192.168.1.0 with prefix 33. *)
Lemma invalid_input_exits_witness :
  IPv4Address "192.168.1.0" = Some (v4addr 3232235776)
  /\ validate_input "192.168.1.0" (Some 33) None
     = Exit 1 [Text "Input validation error: "
                 :: not_a_network "192.168.1.0/33"].
Proof.
  assert (Ha : IPv4Address "192.168.1.0" = Some (v4addr 3232235776))
    by reflexivity.
  assert (Hp : 33 < 0 \/ 32 < 33) by (right; lia).
  split; [exact Ha |].
  destruct (invalid_input_exits _ _ 33 0 Ha) as (H & _).
  destruct (H Hp None) as (Hv & _). exact Hv.
Defined.

(** C6 as stated fails for 192.168.1.0 with prefix 33: [validate_input]
    returns nothing, it ends the process with status 1. *)
Lemma bad_prefix_ends_process :
  validate_input "192.168.1.0" (Some 33) None
  = Exit 1 [Text "Input validation error: " :: not_a_network "192.168.1.0/33"]
  /\ (forall v, validate_input "192.168.1.0" (Some 33) None <> Return v)
  /\ main (args.make "192.168.1.0" (Some 33) None)
     = Exit 1 [Text "Input validation error: "
                 :: not_a_network "192.168.1.0/33"].
Proof.
  assert (H : validate_input "192.168.1.0" (Some 33) None
              = Exit 1 [Text "Input validation error: "
                          :: not_a_network "192.168.1.0/33"])
    by (vm_compute; reflexivity).
  split; [exact H |]. split; [| vm_compute; reflexivity].
  intros v Hv. rewrite H in Hv. discriminate Hv.
Qed.



(** * Further properties of the script *)

(** ** The prefix search for any count *)

Section SearchAnyCount.

(** The loop returns the least prefix, from [p] on, whose number of blocks
    reaches the count, whatever the count is. *)
Lemma while_loop_least (p n : Z) :
  let q := while_loop p n p in
  p <= q /\ n <= 2 ^ (q - p) /\ (forall r, p <= r < q -> 2 ^ (r - p) < n).
Proof.
  intros q.
  destruct (while_loop_steps p n (Z.to_nat (Z.max 0 n)) p)
    as (j & _ & Hloop & _ & _ & Hreach & Hbelow); [lia | |].
  - replace (p + Z.of_nat (Z.to_nat (Z.max 0 n)) - p) with (Z.max 0 n) by lia.
    destruct (Z.le_gt_cases n 0) as [Hn | Hn].
    + pow2_pos (Z.max 0 n) H. lia.
    + rewrite Z.max_r by lia.
      pose proof (Z.pow_gt_lin_r 2 n ltac:(lia) ltac:(lia)). lia.
  - fold q in Hloop. rewrite <- Hloop in Hreach, Hbelow.
    split; [lia |]. split; [exact Hreach | exact Hbelow].
Qed.

Lemma while_loop_beyond (p n : Z) :
  0 <= p <= 32 -> 2 ^ (32 - p) < n -> 32 < while_loop p n p.
Proof.
  intros Hp Hn. destruct (while_loop_least p n) as (Hq & Hreach & _).
  destruct (Z.le_gt_cases (while_loop p n p) 32) as [Hle | Hgt]; [| lia].
  assert (2 ^ (while_loop p n p - p) <= 2 ^ (32 - p))
    by (apply Z.pow_le_mono_r; lia).
  lia.
Qed.

End SearchAnyCount.

(** X1: for every current prefix and every count the prefix search adds
    the ceiling of the binary logarithm of the count: no bit for a count of
    one or less, and without regard to the 32 bits of an address. *)
Theorem prefix_search_closed_form (p n : Z) :
  while_loop p n p = p + Z.log2_up n.
Proof.
  destruct (while_loop_least p n) as (Hq & Hreach & Hbelow).
  destruct (Z.le_gt_cases n 1) as [Hn | Hn].
  - rewrite Z.log2_up_eqn0 by exact Hn.
    destruct (Z.le_gt_cases (while_loop p n p) p) as [| Hgt]; [lia |].
    specialize (Hbelow p ltac:(lia)). rewrite Z.sub_diag in Hbelow.
    cbn in Hbelow. lia.
  - pose proof (Z.log2_up_spec n Hn) as [Hlo Hhi].
    pose proof (Z.log2_up_nonneg n) as H0.
    apply Z.le_antisymm.
    + destruct (Z.le_gt_cases (while_loop p n p) (p + Z.log2_up n)) as [| Hgt];
        [assumption |].
      specialize (Hbelow (p + Z.log2_up n) ltac:(lia)).
      replace (p + Z.log2_up n - p) with (Z.log2_up n) in Hbelow by lia. lia.
    + destruct (Z.le_gt_cases (p + Z.log2_up n) (while_loop p n p)) as [| Hlt];
        [assumption |].
      assert (2 ^ (while_loop p n p - p) <= 2 ^ Z.pred (Z.log2_up n))
        by (apply Z.pow_le_mono_r; lia).
      lia.
Qed.

(** X2: for a valid IPv4 address text, a prefix [p] in [0, 32] and a count
    [n] with [1 <= n <= 2 ^ (32 - p)], [calculate_multiple_subnets] returns
    a power of two of dicts that is at least [n] and less than twice [n]. *)
Theorem subnet_count_bounds (ip : string) (a : Address) (p n : Z) :
  IPv4Address ip = Some a -> 0 <= p <= 32 -> 1 <= n <= 2 ^ (32 - p) ->
  exists results,
    calculate_multiple_subnets ip (Some p) n = Return results
    /\ Z.of_nat (List.length results) = 2 ^ (while_loop p n p - p)
    /\ n <= Z.of_nat (List.length results) < 2 * n.
Proof.
  intros Ha Hp Hn.
  destruct (while_loop_least p n) as (Hq & Hreach & Hbelow).
  assert (Hq32 : while_loop p n p <= 32).
  { destruct (Z.le_gt_cases (while_loop p n p) 32) as [| Hgt]; [assumption |].
    specialize (Hbelow 32 ltac:(lia)). lia. }
  eexists. split; [apply (calculate_multiple_subnets_v4 ip a p n Ha); lia |].
  rewrite length_map, children_length by lia.
  split; [reflexivity |]. split; [exact Hreach |].
  destruct (Z.eq_dec (while_loop p n p) p) as [-> | Hne].
  - rewrite Z.sub_diag. change (2 ^ 0) with 1. lia.
  - specialize (Hbelow (while_loop p n p - 1) ltac:(lia)).
    replace (while_loop p n p - p) with (Z.succ (while_loop p n p - 1 - p))
      by lia.
    rewrite Z.pow_succ_r by lia. lia.
Qed.

(** The theorem at 10.0.0.0/8 and five subnets: eight are returned. *)
Lemma subnet_count_bounds_witness :
  IPv4Address "10.0.0.0" = Some (v4addr 167772160) /\ 0 <= 8 <= 32
  /\ 1 <= 5 <= 2 ^ (32 - 8)
  /\ exists results,
       calculate_multiple_subnets "10.0.0.0" (Some 8) 5 = Return results
       /\ 5 <= Z.of_nat (List.length results) < 2 * 5.
Proof.
  assert (Ha : IPv4Address "10.0.0.0" = Some (v4addr 167772160)) by reflexivity.
  assert (Hp : 0 <= 8 <= 32) by lia.
  assert (Hn : 1 <= 5 <= 2 ^ (32 - 8)) by (cbn; lia).
  split; [exact Ha |]. split; [exact Hp |]. split; [exact Hn |].
  destruct (subnet_count_bounds _ _ 8 5 Ha Hp Hn) as (r & Hr & _ & Hb).
  exists r. split; [exact Hr | exact Hb].
Defined.

(** X3: called without validation with a count above [2 ^ (32 - p)],
    [calculate_multiple_subnets] raises the [ValueError] of
    [subnets(new_prefix=...)] for a prefix below 32, the search having passed
    32; for a /32 network it returns that one network whatever the count. *)
Theorem count_beyond_capacity (ip : string) (a : Address) (p n : Z) :
  IPv4Address ip = Some a -> 0 <= p <= 32 -> 2 ^ (32 - p) < n ->
  let parent := v4net (block_start (_ip a) p) p in
  32 < while_loop p n p
  /\ (p < 32 ->
      calculate_multiple_subnets ip (Some p) n
      = Raise (ValueError
                 [Text "prefix length diff "; Num (PyInt (while_loop p n p));
                  Text " is invalid for netblock "; Text (str_network parent)]))
  /\ (p = 32 ->
      calculate_multiple_subnets ip (Some p) n = Return [details parent]).
Proof.
  intros Ha Hp Hn parent.
  pose proof (while_loop_beyond p n Hp Hn) as Hq.
  pose proof (IPv4Address_inv ip a Ha) as (_ & Hr & _).
  pose proof (block_start_aligned (_ip a) p Hr Hp) as Hal.
  split; [exact Hq |].
  assert (Hsub : ipaddress.subnets parent (while_loop p n p)
                 = if p =? 32 then Return [parent]
                   else Raise (ValueError
                                 [Text "prefix length diff ";
                                  Num (PyInt (while_loop p n p));
                                  Text " is invalid for netblock ";
                                  Text (str_network parent)])).
  { unfold ipaddress.subnets. change (_prefixlen parent) with p.
    change (_max_prefixlen (cls parent)) with 32.
    destruct (Z.eqb_spec p 32); [reflexivity |].
    destruct (Z.ltb_spec (while_loop p n p) p); [lia |].
    destruct (Z.ltb_spec (while_loop p n p - p) 0); [lia |].
    replace (p + (while_loop p n p - p)) with (while_loop p n p) by lia.
    destruct (Z.ltb_spec 32 (while_loop p n p)); [reflexivity | lia]. }
  unfold calculate_multiple_subnets.
  rewrite (ip_network_v4 ip a p Ha Hp). cbn [bind]. fold parent.
  rewrite Hsub. split.
  - intros H32. destruct (Z.eqb_spec p 32); [lia | reflexivity].
  - intros E. destruct (Z.eqb_spec p 32); [| lia].
    cbn [bind for_each]. unfold parent.
    rewrite subnet_details_v4net by assumption. reflexivity.
Qed.

(** The theorem at 192.168.1.0/24 and 300 subnets. *)
Lemma count_beyond_capacity_witness :
  IPv4Address "192.168.1.0" = Some (v4addr 3232235776) /\ 0 <= 24 <= 32
  /\ 2 ^ (32 - 24) < 300 /\ 32 < while_loop 24 300 24.
Proof.
  assert (Ha : IPv4Address "192.168.1.0" = Some (v4addr 3232235776))
    by reflexivity.
  assert (Hp : 0 <= 24 <= 32) by lia.
  assert (Hn : 2 ^ (32 - 24) < 300) by (cbn; lia).
  split; [exact Ha |]. split; [exact Hp |]. split; [exact Hn |].
  destruct (count_beyond_capacity _ _ 24 300 Ha Hp Hn) as (Hq & _).
  exact Hq.
Defined.

(** ** Validation of other inputs *)

Section OtherInputs.

Lemma split_with (sep : ascii) (s : string) :
  contains sep s = true -> (2 <= List.length (split sep s))%nat.
Proof.
  induction s as [| c s IH]; cbn [contains split]; [discriminate |].
  destruct (Ascii.eqb c sep); cbn [orb].
  - intros _. pose proof (split_nonempty sep s) as Hne.
    destruct (split sep s); [contradiction | cbn; lia].
  - intros H. specialize (IH H).
    destruct (split sep s) as [| x l]; cbn [List.length] in *; lia.
Qed.

(** A text with two slashes or more is no network of either family. *)
Lemma Network_of_string_slashes (c : family) (ip : string) (cidr : option Z) :
  contains "/" ip = true -> Network_of_string c (slash ip cidr) = None.
Proof.
  intros H. unfold Network_of_string, _split_addr_prefix,
    _split_optional_netmask, slash.
  change ("/" ++ format cidr)%string with (String "/" (format cidr)).
  rewrite split_append.
  pose proof (split_with "/" ip H) as H2.
  pose proof (split_nonempty "/" (format cidr)) as Hne.
  assert (Hlen : (2 <? Z.of_nat (List.length (split "/" ip ++ split "/" (format cidr))))
                 = true).
  { apply Z.ltb_lt. rewrite length_app.
    destruct (split "/" (format cidr)); [contradiction | cbn [List.length]; lia]. }
  rewrite Hlen. reflexivity.
Qed.

(** The prefix length of a network built from [f"{ip_address}/{cidr}"] is
    the [cidr] given, for either family. *)
Lemma Network_of_string_prefixlen (c : family) (ip : string) (p : Z)
  (net : Network) :
  Network_of_string c (slash ip (Some p)) = Some net -> _prefixlen net = p.
Proof.
  destruct (contains "/" ip) eqn:Hs.
  - rewrite Network_of_string_slashes by exact Hs. discriminate.
  - unfold Network_of_string, _split_addr_prefix, _split_optional_netmask.
    rewrite (split_slash ip (Some p) Hs) by (apply str_chars; reflexivity).
    change (2 <? Z.of_nat (List.length [ip; format (Some p)])) with false.
    cbv beta iota.
    destruct (Address_of_string c ip) as [a |]; [| discriminate].
    assert (Hmask : forall pl, _make_netmask c (MaskText (str p)) = Some pl ->
                               pl = p).
    { intros pl. unfold _make_netmask, _prefix_from_prefix_string.
      rewrite int_of_digits_str.
      assert (Hdot : _prefix_from_ip_string (str p) = None).
      { unfold _prefix_from_ip_string, v4_ip_int_from_string.
        rewrite split_without by (apply str_chars; reflexivity).
        destruct (str p); reflexivity. }
      rewrite Hdot.
      destruct (0 <=? p); [| destruct c; discriminate].
      destruct ((0 <=? p) && (p <=? _max_prefixlen c));
        [intros [= <-]; reflexivity | destruct c; discriminate]. }
    cbn [format].
    destruct (_make_netmask c (MaskText (str p))) as [pl |] eqn:E;
      [| discriminate].
    intros [= <-]. cbn [_prefixlen]. exact (Hmask pl eq_refl).
Qed.

Lemma ip_network_prefixlen (ip : string) (p : Z) (net : Network) :
  ip_network (slash ip (Some p)) = Return net -> prefixlen net = p.
Proof.
  unfold ip_network.
  destruct (Network_of_string IPv4 (slash ip (Some p))) as [n4 |] eqn:E4.
  - intros [= <-]. exact (Network_of_string_prefixlen IPv4 ip p n4 E4).
  - destruct (Network_of_string IPv6 (slash ip (Some p))) as [n6 |] eqn:E6;
      [| discriminate].
    intros [= <-]. exact (Network_of_string_prefixlen IPv6 ip p n6 E6).
Qed.

Lemma ip_network_outcomes (t : string) :
  (exists net, ip_network t = Return net)
  \/ ip_network t = Raise (ValueError (not_a_network t)).
Proof.
  unfold ip_network. destruct (Network_of_string IPv4 t);
    [left; eexists; reflexivity |].
  destruct (Network_of_string IPv6 t);
    [left; eexists; reflexivity | right; reflexivity].
Qed.

(** A bare IPv4 address text is the /32 network of that address. *)
Lemma ip_network_bare (ip : string) (a : Address) :
  IPv4Address ip = Some a -> ip_network ip = Return (v4net (_ip a) 32).
Proof.
  intros Ha. pose proof (IPv4Address_inv ip a Ha) as (Hrec & Hr & Hs & _).
  unfold ip_network, Network_of_string, _split_addr_prefix,
    _split_optional_netmask.
  rewrite (split_without _ _ Hs).
  change (2 <? Z.of_nat (List.length [ip])) with false. cbv beta iota.
  cbn [Address_of_string]. rewrite Ha.
  change (_make_netmask IPv4 (MaskInt (_max_prefixlen IPv4))) with (Some 32).
  cbv beta iota. rewrite land_netmask by (assumption || lia).
  change (2 ^ (32 - 32)) with 1. rewrite Z.div_1_r, Z.mul_1_l, Z.eqb_refl.
  cbn [negb]. rewrite Hrec at 1. reflexivity.
Qed.

End OtherInputs.

(** X4: a prefix embedded in the address text is validated exactly like the
    same prefix passed as [cidr], for every address text, prefix and count:
    the derived prefix is the embedded one. *)
Theorem embedded_prefix_validated_alike (ip : string) (p : Z)
  (subnets : option Z) :
  validate_input (slash ip (Some p)) None subnets
  = validate_input ip (Some p) subnets.
Proof.
  unfold validate_input, validate_input_try.
  destruct (ip_network_outcomes (slash ip (Some p))) as [[net H] | H];
    rewrite H; cbn [bind]; [| reflexivity].
  rewrite (ip_network_prefixlen ip p net H). reflexivity.
Qed.

(** X5: without a prefix, a bare IPv4 address text is validated as a /32
    network: a count above one is rejected with a capacity of 1, and any
    other count, or none, passes. *)
Theorem bare_address_is_slash32 (ip : string) (a : Address) (n : Z) :
  IPv4Address ip = Some a ->
  validate_input ip None (Some n)
  = (if 1 <? n
     then Exit 1 [Text "Input validation error: "
                    :: too_many_subnets n (PyInt 1) 32]
     else Return tt)
  /\ validate_input ip None None = Return tt.
Proof.
  intros Ha. unfold validate_input, validate_input_try.
  rewrite (ip_network_bare ip a Ha). cbn [bind truthy prefixlen _prefixlen v4net].
  split; [| reflexivity].
  destruct (Z.eqb_spec n 0) as [-> | Hn]; cbn [negb]; [reflexivity |].
  change (pow2 (32 - 32)) with (PyInt 1). unfold int_gt. cbn [number_lt].
  destruct (1 <? n); reflexivity.
Qed.

(** The theorem at 10.0.0.1 and two subnets: rejected. *)
Lemma bare_address_is_slash32_witness :
  IPv4Address "10.0.0.1" = Some (v4addr 167772161)
  /\ validate_input "10.0.0.1" None (Some 2)
     = Exit 1 [Text "Input validation error: "
                 :: too_many_subnets 2 (PyInt 1) 32].
Proof.
  assert (Ha : IPv4Address "10.0.0.1" = Some (v4addr 167772161)) by reflexivity.
  split; [exact Ha |].
  destruct (bare_address_is_slash32 _ _ 2 Ha) as (H & _). exact H.
Defined.

(** X6: an address text that holds a slash is rejected whenever a prefix
    is passed as well, whatever the two are: the text built from them has
    two slashes. *)
Theorem slash_and_prefix_rejected (ip : string) (p : Z) (subnets : option Z) :
  contains "/" ip = true ->
  validate_input ip (Some p) subnets
  = Exit 1 [Text "Input validation error: "
              :: not_a_network (slash ip (Some p))]
  /\ main (args.make ip (Some p) subnets)
     = Exit 1 [Text "Input validation error: "
                 :: not_a_network (slash ip (Some p))]
  /\ calculate_subnet_details ip (Some p)
     = Raise (ValueError (not_a_network (slash ip (Some p)))).
Proof.
  intros Hs.
  assert (Hnet : ip_network (slash ip (Some p))
                 = Raise (ValueError (not_a_network (slash ip (Some p))))).
  { unfold ip_network. rewrite !Network_of_string_slashes by exact Hs.
    reflexivity. }
  assert (Hv : validate_input ip (Some p) subnets
               = Exit 1 [Text "Input validation error: "
                           :: not_a_network (slash ip (Some p))]).
  { unfold validate_input, validate_input_try. rewrite Hnet. reflexivity. }
  split; [exact Hv |]. split; [apply main_exit; exact Hv |].
  unfold calculate_subnet_details. rewrite Hnet. reflexivity.
Qed.

(** The theorem at the text 192.168.1.0/24 with prefix 24. *)
Lemma slash_and_prefix_rejected_witness :
  contains "/" "192.168.1.0/24" = true
  /\ validate_input "192.168.1.0/24" (Some 24) None
     = Exit 1 [Text "Input validation error: "
                 :: not_a_network "192.168.1.0/24/24"].
Proof.
  assert (Hs : contains "/" "192.168.1.0/24" = true) by reflexivity.
  split; [exact Hs |].
  destruct (slash_and_prefix_rejected _ 24 None Hs) as (H & _). exact H.
Defined.

(** X7: for a network whose prefix is above 32, which an IPv6 address text
    allows, the capacity [2 ** (32 - cidr)] is a fraction below one, so
    every count of one or more is rejected and every count of zero or less
    passes. *)
Theorem prefix_above_32 (ip : string) (c n : Z) (net : Network) :
  ip_network (slash ip (Some c)) = Return net -> 32 < c ->
  (exists q, pow2 (32 - c) = PyFloat q)
  /\ (1 <= n ->
      validate_input ip (Some c) (Some n)
      = Exit 1 [Text "Input validation error: "
                  :: too_many_subnets n (pow2 (32 - c)) c])
  /\ (n <= 0 -> validate_input ip (Some c) (Some n) = Return tt).
Proof.
  intros Hnet Hc. split.
  { unfold pow2. destruct (Z.leb_spec 0 (32 - c)); [lia |].
    eexists. reflexivity. }
  unfold validate_input, validate_input_try. rewrite Hnet.
  cbn [bind truthy]. unfold int_gt. rewrite number_lt_pow2.
  rewrite (Z.pow_neg_r 2 (32 - c)) by lia.
  split; intros Hn.
  - destruct (Z.eqb_spec n 0); [lia |]. cbn [negb].
    destruct (Z.ltb_spec 0 n); [reflexivity | lia].
  - destruct (Z.eqb_spec n 0); [reflexivity |]. cbn [negb].
    destruct (Z.ltb_spec 0 n); [lia | reflexivity].
Qed.

(** The theorem at the IPv6 text ::1 with prefix 64 and one subnet. *)
Lemma prefix_above_32_witness :
  (exists net, ip_network (slash "::1" (Some 64)) = Return net) /\ 32 < 64
  /\ validate_input "::1" (Some 64) (Some 1)
     = Exit 1 [Text "Input validation error: "
                 :: too_many_subnets 1 (pow2 (32 - 64)) 64].
Proof.
  assert (Hnet : ip_network (slash "::1" (Some 64))
                 = Return (mkNetwork IPv6 (mkAddress IPv6 0 None) 64))
    by (vm_compute; reflexivity).
  assert (Hc : 32 < 64) by lia.
  split; [eexists; exact Hnet |]. split; [exact Hc |].
  destruct (prefix_above_32 _ 64 1 _ Hnet Hc) as (_ & H & _).
  apply H. lia.
Defined.

(** ** Address texts read back *)

Section ReadBack.

Lemma range_In (a b x : Z) : a <= x < b -> In x (range a b).
Proof.
  intros H. unfold range. apply in_map_iff.
  exists (Z.to_nat (x - a)). split; [lia | apply in_seq; lia].
Qed.

(** An octet printed by [str] is read back by [_parse_octet]. *)
Lemma parse_octet_str (b : Z) : 0 <= b <= 255 -> _parse_octet (str b) = Some b.
Proof.
  intros H.
  assert (Hall : forallb (fun v => match _parse_octet (str v) with
                                   | Some w => w =? v
                                   | None => false
                                   end) (range 0 256) = true)
    by (vm_compute; reflexivity).
  rewrite forallb_forall in Hall. specialize (Hall b (range_In 0 256 b ltac:(lia))).
  destruct (_parse_octet (str b)) as [w |]; [| discriminate].
  apply Z.eqb_eq in Hall. subst w. reflexivity.
Qed.

Lemma str_not_empty (z : Z) : str z <> EmptyString.
Proof.
  unfold str, NilZero.string_of_int, NilZero.string_of_uint.
  destruct (Z.to_int z) as [d | d]; [| discriminate].
  destruct d; discriminate.
Qed.

(** Four octets joined by dots are read back as the address they spell. *)
Lemma IPv4Address_dotted (b1 b2 b3 b4 : Z) :
  0 <= b1 <= 255 -> 0 <= b2 <= 255 -> 0 <= b3 <= 255 -> 0 <= b4 <= 255 ->
  IPv4Address (join "." (map str [b1; b2; b3; b4]))
  = Some (v4addr (256 * (256 * (256 * (256 * 0 + b1) + b2) + b3) + b4)).
Proof.
  intros H1 H2 H3 H4. cbn [map join String.append].
  assert (Hd : forall z, contains "." (str z) = false)
    by (intros z; apply str_chars; reflexivity).
  assert (Hs : forall z, contains "/" (str z) = false)
    by (intros z; apply str_chars; reflexivity).
  unfold IPv4Address.
  repeat (rewrite contains_append; cbn [contains]). rewrite !Hs.
  change (Ascii.eqb "." "/") with false. cbn [orb].
  unfold v4_ip_int_from_string.
  rewrite !split_append, !split_without by apply Hd.
  change ([str b1] ++ [str b2] ++ [str b3] ++ [str b4])%list
    with [str b1; str b2; str b3; str b4].
  change (negb (Z.of_nat (List.length [str b1; str b2; str b3; str b4]) =? 4))
    with false.
  cbn [from_octets]. rewrite !parse_octet_str by assumption.
  destruct (str b1) eqn:E1; [exfalso; exact (str_not_empty b1 E1) |].
  reflexivity.
Qed.

(** The four bytes of a 32-bit value, most significant first, spell it. *)
Lemma to_bytes4_value (x : Z) :
  0 <= x < 2 ^ 32 ->
  Forall (fun b => 0 <= b <= 255) (to_bytes4 x)
  /\ match to_bytes4 x with
     | [b1; b2; b3; b4] =>
         256 * (256 * (256 * (256 * 0 + b1) + b2) + b3) + b4 = x
     | _ => False
     end.
Proof.
  intros Hx. unfold to_bytes4. change 255 with (Z.ones 8).
  rewrite !Z.land_ones, !Z.shiftr_div_pow2 by lia.
  change (Z.ones 8) with 255. change (2 ^ 8) with 256. change (2 ^ 16) with (256 * 256).
  change (2 ^ 24) with (256 * (256 * 256)).
  rewrite <- !Z.div_div by lia.
  pose proof (Z.div_mod x 256 ltac:(lia)) as E0.
  pose proof (Z.mod_pos_bound x 256 ltac:(lia)) as B0.
  set (x1 := x / 256) in *.
  pose proof (Z.div_mod x1 256 ltac:(lia)) as E1.
  pose proof (Z.mod_pos_bound x1 256 ltac:(lia)) as B1.
  set (x2 := x1 / 256) in *.
  pose proof (Z.div_mod x2 256 ltac:(lia)) as E2.
  pose proof (Z.mod_pos_bound x2 256 ltac:(lia)) as B2.
  set (x3 := x2 / 256) in *.
  pose proof (Z.mod_pos_bound x3 256 ltac:(lia)) as B3.
  assert (H3 : 0 <= x3 < 256).
  { change (2 ^ 32) with 4294967296 in Hx. lia. }
  rewrite (Z.mod_small x3 256) by exact H3.
  split; [| lia].
  repeat (apply Forall_cons; [lia |]). apply Forall_nil.
Qed.

(** An address printed in dotted decimal notation is read back as itself. *)
Lemma IPv4Address_printed (x : Z) :
  0 <= x < 2 ^ 32 -> IPv4Address (str_address (v4addr x)) = Some (v4addr x).
Proof.
  intros Hx. cbn [str_address v4addr version _ip]. unfold v4_string_from_ip_int.
  pose proof (to_bytes4_value x Hx) as [Hb Hv].
  destruct (to_bytes4 x) as [| b1 [| b2 [| b3 [| b4 [| ? ?]]]]];
    try contradiction.
  apply Forall_cons_iff in Hb as [H1 Hb]. apply Forall_cons_iff in Hb as [H2 Hb].
  apply Forall_cons_iff in Hb as [H3 Hb]. apply Forall_cons_iff in Hb as [H4 _].
  rewrite IPv4Address_dotted by assumption. rewrite Hv. reflexivity.
Qed.

(** Every address of a block has the block's first address as its start. *)
Lemma block_start_within (n p x : Z) :
  aligned n p -> 0 <= p <= 32 -> n <= x < n + 2 ^ (32 - p) ->
  block_start x p = n.
Proof.
  intros ([m Hm] & _) Hp Hx. unfold block_start.
  pow2_pos (32 - p) Hk.
  replace (x / 2 ^ (32 - p)) with m; [lia |].
  apply (Z.div_unique x (2 ^ (32 - p)) m (x - n)); lia.
Qed.

End ReadBack.

(** X9: the report of [calculate_subnet_details] is that of the network,
    not of the address given: every valid address text whose address lies
    in the network, between its network and broadcast addresses, gives the
    same dict with the same prefix; in particular the reported "Network
    Address" and "Broadcast Address" texts, read back, give it again. *)
Theorem details_of_the_network (ip : string) (a : Address) (p : Z) :
  IPv4Address ip = Some a -> 0 <= p <= 32 ->
  exists net d network_text broadcast_text,
    ip_network (slash ip (Some p)) = Return net
    /\ calculate_subnet_details ip (Some p) = Return d
    /\ (forall ip' a', IPv4Address ip' = Some a' ->
          _ip (network_address net) <= _ip a' <= _ip (broadcast_address net) ->
          calculate_subnet_details ip' (Some p) = Return d)
    /\ get "Network Address" d = Some network_text
    /\ get "Broadcast Address" d = Some broadcast_text
    /\ calculate_subnet_details network_text (Some p) = Return d
    /\ calculate_subnet_details broadcast_text (Some p) = Return d.
Proof.
  intros Ha Hp.
  pose proof (IPv4Address_inv ip a Ha) as (_ & Hr & _).
  pose proof (block_start_aligned (_ip a) p Hr Hp) as Hal.
  set (N := block_start (_ip a) p) in *.
  pose proof (broadcast_v4net N p Hal Hp) as HB.
  pow2_pos (32 - p) Hk.
  assert (Hsame : forall ip' a', IPv4Address ip' = Some a' ->
            N <= _ip a' <= _ip (broadcast_address (v4net N p)) ->
            calculate_subnet_details ip' (Some p)
            = calculate_subnet_details ip (Some p)).
  { intros ip' a' Ha' Hin.
    rewrite (calculate_subnet_details_v4 ip' a' p Ha' Hp),
      (calculate_subnet_details_v4 ip a p Ha Hp). cbv zeta. fold N.
    rewrite (block_start_within N p (_ip a')) by (assumption || lia).
    reflexivity. }
  destruct Hal as (Hm & H0 & Hhi).
  pose proof (calculate_subnet_details_v4 ip a p Ha Hp) as Hd.
  cbv zeta in Hd. fold N in Hd.
  exists (v4net N p). eexists.
  exists (str_address (network_address (v4net N p))).
  exists (str_address (broadcast_address (v4net N p))).
  split; [exact (ip_network_v4 ip a p Ha Hp) |].
  split; [exact Hd |].
  split.
  { intros ip' a' Ha' Hin.
    transitivity (calculate_subnet_details ip (Some p)); [| exact Hd].
    apply (Hsame ip' a' Ha'). exact Hin. }
  split; [reflexivity |]. split; [reflexivity |].
  split; (transitivity (calculate_subnet_details ip (Some p)); [| exact Hd]).
  - apply (Hsame _ (v4addr N)).
    + apply IPv4Address_printed. lia.
    + cbn [_ip v4addr]. lia.
  - apply (Hsame _ (v4addr (_ip (broadcast_address (v4net N p))))).
    + apply IPv4Address_printed. lia.
    + cbn [_ip v4addr]. lia.
Qed.

(** The theorem at 192.168.1.77/24: 192.168.1.0/24 gives the same dict. *)
Lemma details_of_the_network_witness :
  IPv4Address "192.168.1.77" = Some (v4addr 3232235853) /\ 0 <= 24 <= 32
  /\ exists d,
       calculate_subnet_details "192.168.1.77" (Some 24) = Return d
       /\ calculate_subnet_details "192.168.1.0" (Some 24) = Return d.
Proof.
  assert (Ha : IPv4Address "192.168.1.77" = Some (v4addr 3232235853))
    by reflexivity.
  assert (Hp : 0 <= 24 <= 32) by lia.
  split; [exact Ha |]. split; [exact Hp |].
  destruct (details_of_the_network _ _ 24 Ha Hp)
    as (net & d & nt & bt & Hnet & Hd & Hsame & _).
  exists d. split; [exact Hd |].
  apply (Hsame "192.168.1.0"%string (v4addr 3232235776) eq_refl).
  injection (eq_trans (eq_sym Hnet) (ip_network_v4 _ _ 24 Ha Hp)) as ->.
  vm_compute. split; discriminate.
Defined.



(** ** What is printed *)

Section Printed.


Lemma display_subnets_length (i : Z) (l : list dict) :
  List.length (display_subnets i l)
  = list_sum (map (fun d => List.length d + 2)%nat l).
Proof.
  revert i. induction l as [| d l IH]; intros i; [reflexivity |].
  cbn [display_subnets map list_sum].
  rewrite !length_app, IH. unfold display_items.
  cbn [List.length]. rewrite length_map.
  change (list_sum (?x :: ?l)) with (x + list_sum l)%nat. lia.
Qed.

End Printed.


Section Runs.

Variables (ip : string) (a : Address).
Hypothesis Ha : IPv4Address ip = Some a.

(** A run with a prefix in range and a count within capacity prints the
    dicts of the children of the searched prefix. *)
Lemma main_multiple (p n : Z) :
  0 <= p <= 32 -> n <= 2 ^ (32 - p) -> n <> 0 ->
  main (args.make ip (Some p) (Some n))
  = Return (display_results
              (inr (map details
                      (children (block_start (_ip a) p) p (while_loop p n p)))))
  /\ p <= while_loop p n p <= 32.
Proof.
  intros Hp Hn H0.
  destruct (while_loop_least p n) as (Hq & Hreach & Hbelow).
  assert (Hq32 : while_loop p n p <= 32).
  { destruct (Z.le_gt_cases (while_loop p n p) 32) as [| Hgt]; [assumption |].
    specialize (Hbelow 32 ltac:(lia)). lia. }
  split; [| lia].
  unfold main. cbn [args.ip_address args.cidr args.subnets].
  rewrite (validate_input_count ip a p n Ha Hp).
  destruct (Z.ltb_spec (2 ^ (32 - p)) n); [lia |]. cbn [bind truthy].
  destruct (Z.eqb_spec n 0); [contradiction |]. cbn [negb].
  rewrite (calculate_multiple_subnets_v4 ip a p n Ha) by lia. reflexivity.
Qed.

Lemma main_single (p : Z) (subnets : option Z) :
  0 <= p <= 32 -> truthy subnets = false ->
  main (args.make ip (Some p) subnets)
  = Return (display_results
              (inl [("Subnet Mask"%string,
                     str_address (netmask (v4net (block_start (_ip a) p) p)));
                    ("Network Address"%string,
                     str_address
                       (network_address (v4net (block_start (_ip a) p) p)));
                    ("Broadcast Address"%string,
                     str_address
                       (broadcast_address (v4net (block_start (_ip a) p) p)));
                    ("Usable IP Range"%string,
                     usable_ip_range
                       (hosts (v4net (block_start (_ip a) p) p)))])).
Proof.
  intros Hp Ht. unfold main. cbn [args.ip_address args.cidr args.subnets].
  assert (Hv : validate_input ip (Some p) subnets = Return tt).
  { destruct subnets as [n |]; [| exact (validate_input_v4 ip a p Ha Hp)].
    cbn [truthy] in Ht. apply negb_false_iff, Z.eqb_eq in Ht. subst n.
    rewrite (validate_input_count ip a p 0 Ha Hp).
    pow2_pos (32 - p) Hk. destruct (Z.ltb_spec (2 ^ (32 - p)) 0); [lia | reflexivity]. }
  rewrite Hv. cbn [bind].
  pose proof (calculate_subnet_details_v4 ip a p Ha Hp) as Hd. cbv zeta in Hd.
  destruct subnets as [n |]; [rewrite Ht |]; rewrite Hd; reflexivity.
Qed.

End Runs.

(** X12: with a valid IPv4 address text and a prefix argument a run never
    ends in an unhandled exception, whatever the prefix and the count: it
    ends with [exit(1)] in [validate_input] when the prefix is outside
    [0, 32] or the count is above [2 ^ (32 - p)], and prints its result
    otherwise. *)
Theorem run_with_prefix_never_raises (ip : string) (a : Address) (p : Z)
  (subnets : option Z) :
  IPv4Address ip = Some a ->
  let rejected :=
    p < 0 \/ 32 < p \/ exists n, subnets = Some n /\ 2 ^ (32 - p) < n in
  (rejected -> exists out, main (args.make ip (Some p) subnets) = Exit 1 out)
  /\ (~ rejected ->
      exists out, main (args.make ip (Some p) subnets) = Return out)
  /\ (forall e, main (args.make ip (Some p) subnets) <> Raise e).
Proof.
  intros Ha rejected.
  assert (Hbad : rejected ->
                 exists out, main (args.make ip (Some p) subnets) = Exit 1 out).
  { intros [Hp | [Hp | (n & -> & Hn)]].
    - eexists. apply main_exit. cbn [args.ip_address args.cidr args.subnets].
      unfold validate_input, validate_input_try.
      rewrite (ip_network_bad_prefix ip a p Ha (or_introl Hp)). reflexivity.
    - eexists. apply main_exit. cbn [args.ip_address args.cidr args.subnets].
      unfold validate_input, validate_input_try.
      rewrite (ip_network_bad_prefix ip a p Ha (or_intror Hp)). reflexivity.
    - destruct (Z.lt_ge_cases p 0) as [Hneg | Hpos];
        [| destruct (Z.lt_ge_cases 32 p) as [Hbig | Hsmall]].
      + eexists. apply main_exit. cbn [args.ip_address args.cidr args.subnets].
        unfold validate_input, validate_input_try.
        rewrite (ip_network_bad_prefix ip a p Ha (or_introl Hneg)). reflexivity.
      + eexists. apply main_exit. cbn [args.ip_address args.cidr args.subnets].
        unfold validate_input, validate_input_try.
        rewrite (ip_network_bad_prefix ip a p Ha (or_intror Hbig)). reflexivity.
      + eexists. apply main_exit. cbn [args.ip_address args.cidr args.subnets].
        rewrite (validate_input_count ip a p n Ha) by lia.
        destruct (Z.ltb_spec (2 ^ (32 - p)) n); [reflexivity | lia]. }
  assert (Hgood : ~ rejected ->
                  exists out, main (args.make ip (Some p) subnets) = Return out).
  { intros Hok. unfold rejected in Hok.
    assert (Hp : 0 <= p <= 32) by lia.
    destruct (truthy subnets) eqn:Ht.
    - destruct subnets as [n |]; [| discriminate Ht].
      cbn [truthy] in Ht. apply negb_true_iff, Z.eqb_neq in Ht.
      assert (Hn : n <= 2 ^ (32 - p)).
      { destruct (Z.le_gt_cases n (2 ^ (32 - p))) as [| Hgt]; [assumption |].
        exfalso. apply Hok. right. right. exists n. split; [reflexivity | lia]. }
      eexists. exact (proj1 (main_multiple ip a Ha p n Hp Hn Ht)).
    - eexists. exact (main_single ip a Ha p subnets Hp Ht). }
  split; [exact Hbad |]. split; [exact Hgood |].
  intros e He.
  assert (Hdec : rejected \/ ~ rejected).
  { unfold rejected. destruct (Z.lt_ge_cases p 0); [left; lia |].
    destruct (Z.lt_ge_cases 32 p); [left; lia |].
    destruct subnets as [n |].
    - destruct (Z.lt_ge_cases (2 ^ (32 - p)) n).
      + left. right. right. exists n. split; [reflexivity | assumption].
      + right. intros [? | [? | (m & [= <-] & ?)]]; lia.
    - right. intros [? | [? | (m & [=] & ?)]]; lia. }
  destruct Hdec as [Hr | Hr].
  - destruct (Hbad Hr) as [out H]. rewrite H in He. discriminate He.
  - destruct (Hgood Hr) as [out H]. rewrite H in He. discriminate He.
Qed.

(** The theorem at 192.168.1.0 with prefix 24 and four subnets. *)
Lemma run_with_prefix_never_raises_witness :
  IPv4Address "192.168.1.0" = Some (v4addr 3232235776)
  /\ forall e, main (args.make "192.168.1.0" (Some 24) (Some 4)) <> Raise e.
Proof.
  assert (Ha : IPv4Address "192.168.1.0" = Some (v4addr 3232235776))
    by reflexivity.
  split; [exact Ha |].
  destruct (run_with_prefix_never_raises _ _ 24 (Some 4) Ha) as (_ & _ & H).
  exact H.
Defined.

(** X13: a run that passes validation prints four lines in single-network
    mode, and seven lines for each of the [2 ^ (q - p)] subnets in
    multi-subnet mode, [q] being the searched prefix. *)
Theorem printed_line_count (ip : string) (a : Address) (p : Z)
  (subnets : option Z) :
  IPv4Address ip = Some a -> 0 <= p <= 32 ->
  (forall n, subnets = Some n -> n <= 2 ^ (32 - p)) ->
  exists out,
    main (args.make ip (Some p) subnets) = Return out
    /\ Z.of_nat (List.length out)
       = match subnets with
         | Some n => if n =? 0 then 4 else 7 * 2 ^ (while_loop p n p - p)
         | None => 4
         end.
Proof.
  intros Ha Hp Hcap.
  destruct (truthy subnets) eqn:Ht.
  - destruct subnets as [n |]; [| discriminate Ht].
    cbn [truthy] in Ht. apply negb_true_iff in Ht. rewrite Ht.
    apply Z.eqb_neq in Ht.
    destruct (main_multiple ip a Ha p n Hp (Hcap n eq_refl) Ht) as [Hm Hq].
    eexists. split; [exact Hm |].
    cbn [display_results]. rewrite display_subnets_length, map_map.
    cbn [details List.length].
    assert (Hsum : forall (l : list Network),
              list_sum (map (fun _ => 7%nat) l) = (7 * List.length l)%nat).
    { induction l as [| x l IH]; [reflexivity |]. cbn [map List.length].
      change (list_sum (?y :: ?l0)) with (y + list_sum l0)%nat. lia. }
    rewrite Hsum, Nat2Z.inj_mul, children_length by lia. reflexivity.
  - eexists. split; [exact (main_single ip a Ha p subnets Hp Ht) |].
    destruct subnets as [n |]; [| reflexivity].
    cbn [truthy] in Ht. apply negb_false_iff in Ht. rewrite Ht. reflexivity.
Qed.

(** The theorem at 192.168.1.0/24 and four subnets: 28 lines. *)
Lemma printed_line_count_witness :
  IPv4Address "192.168.1.0" = Some (v4addr 3232235776) /\ 0 <= 24 <= 32
  /\ (forall n, Some 4 = Some n -> n <= 2 ^ (32 - 24))
  /\ exists out,
       main (args.make "192.168.1.0" (Some 24) (Some 4)) = Return out
       /\ Z.of_nat (List.length out) = 7 * 2 ^ (while_loop 24 4 24 - 24).
Proof.
  assert (Ha : IPv4Address "192.168.1.0" = Some (v4addr 3232235776))
    by reflexivity.
  assert (Hp : 0 <= 24 <= 32) by lia.
  assert (Hcap : forall n, Some 4 = Some n -> n <= 2 ^ (32 - 24)).
  { intros n [= <-]. cbn. lia. }
  split; [exact Ha |]. split; [exact Hp |]. split; [exact Hcap |].
  exact (printed_line_count _ _ 24 (Some 4) Ha Hp Hcap).
Defined.
